(** * oclc: an offline OpenCL kernel compiler and its verifier

    A shallow embedding of [src/main.cpp] (the compiler, module [oclc]) and of
    [src/test/main.cpp] (the verifier, module [oclc_test]), followed by the
    properties of the specification that were checked against it.

    Conventions of the embedding
    - [std::string] is [string]; [size_type] values are [N], with
      [npos = 2^64 - 1];
    - [cl_int] status codes are [Z]; handles ([cl_platform_id],
      [cl_device_id]) are [N] with [null = 0];
    - a [std::vector] is a [list]; a raw pointer into a vector is the vector
      with an offset, and reading [n] elements through it yields
      [option] values, [None] standing for a slot past the end;
    - [float] is IEEE 754 binary32 and [double] binary64, both as
      [spec_float]; a host buffer of [N] floats is a function from the index
      to the element, of which only the indices below [N] matter;
    - the OpenCL runtime, the file system and the header [oclErrorCode.h] are
      not part of the sources: they are the fields of an environment record;
    - effects (the two output streams, the files written, the runtime calls
      issued, C++ exceptions, early [return] from [main] and [std::exit]) are
      threaded through a state-and-error monad [M];
    - a [std::unique_ptr] with an OpenCL release function as its deleter is
      a block in whose scope the pointer lives: when the block is left, the
      release call is logged like any other runtime call. *)

From Stdlib Require Import ZArith NArith String Ascii List Bool Lia.
From Stdlib Require Import Strings.Byte.
From Stdlib Require Import Floats.SpecFloat.
From stdpp Require Import base option list strings gmap pretty.

Local Open Scope string_scope.

(** ** C and C++ vocabulary *)

Definition EXIT_SUCCESS : Z := 0.
Definition EXIT_FAILURE : Z := 1.

(** [std::endl] as far as the stream content goes. *)
Definition endl : string := String (ascii_of_nat 10) EmptyString.

(** [std::string::npos], for a 64-bit [size_type]. *)
Definition npos : N := 2 ^ 64 - 1.

Definition size (s : string) : N := N.of_nat (String.length s).

Fixpoint mem_char (c : ascii) (chars : string) : bool :=
  match chars with
  | EmptyString => false
  | String d chars' => if Ascii.eqb c d then true else mem_char c chars'
  end.

(** Whether the character [c] occurs in [s]. *)
Fixpoint occurs (c : ascii) (s : string) : bool :=
  match s with
  | EmptyString => false
  | String d s' => if Ascii.eqb d c then true else occurs c s'
  end.

(** [s.find_last_of(chars)]: the largest index whose character occurs in
    [chars], or [npos].  The scan keeps the last hit seen so far. *)
Fixpoint find_last_of_from (chars s : string) (i last : N) : N :=
  match s with
  | EmptyString => last
  | String c s' =>
      find_last_of_from chars s' (N.succ i) (if mem_char c chars then i else last)
  end.

Definition find_last_of (s chars : string) : N :=
  find_last_of_from chars s 0 npos.

(** [s.substr(pos, count)] for [pos <= s.size()]: the characters in
    [[pos, pos + min(count, size - pos))]. *)
Definition substr (s : string) (pos count : N) : string :=
  substring (N.to_nat pos) (N.to_nat (N.min count (size s - pos))) s.

(** Whether [pattern] occurs in [text]. *)
Definition mentions (text pattern : string) : bool :=
  match index 0 pattern text with
  | Some _ => true
  | None => false
  end.

(** [std::to_string] on an [int] and on a [std::size_t]. *)
Definition to_string (z : Z) : string := pretty z.
Definition to_string_size (n : nat) : string := pretty n.

(** The two exception classes the programs can raise; both derive from
    [std::exception]. *)
Inductive exception : Type :=
| runtime_error (msg : string)
| out_of_range (msg : string).

Definition what (e : exception) : string :=
  match e with
  | runtime_error msg => msg
  | out_of_range msg => msg
  end.

(** ** OpenCL vocabulary (CL/cl.h) *)

Abbreviation cl_int := Z (only parsing).
Definition handle : Type := N.
Definition null : handle := 0%N.

Definition CL_SUCCESS : cl_int := 0.
Definition CL_BUILD_PROGRAM_FAILURE : cl_int := -11.
Definition CL_INVALID_BUILD_OPTIONS : cl_int := -43.

(** Conversions between [cl_int] and [cl_uint] (32 bits, two's complement). *)
Definition to_cl_uint (z : Z) : Z := z mod 2 ^ 32.
Definition to_cl_int (z : Z) : Z := (z + 2 ^ 31) mod 2 ^ 32 - 2 ^ 31.
Definition is_cl_int (z : Z) : Prop := (- 2 ^ 31 <= z < 2 ^ 31)%Z.

Definition CL_DEVICE_TYPE_DEFAULT : Z := 1.
Definition CL_DEVICE_TYPE_CPU : Z := 2.
Definition CL_DEVICE_TYPE_GPU : Z := 4.
Definition CL_DEVICE_TYPE_ALL : Z := 4294967295.

Inductive platform_info : Type := CL_PLATFORM_NAME | CL_PLATFORM_VERSION.
Inductive device_info : Type := CL_DEVICE_NAME | CL_DEVICE_VERSION.
Inductive program_info : Type :=
| CL_PROGRAM_NUM_DEVICES
| CL_PROGRAM_BINARY_SIZES
| CL_PROGRAM_BINARIES.

(** A kernel argument as [clSetKernelArg] receives it: [sizeof] of the
    argument and its value. *)
Record karg : Type := Karg { karg_size : N; karg_value : Z }.

(** The runtime entry points the two programs call, with the arguments that
    matter.  Device lists are what the runtime reads through the pointer it
    is given. *)
Inductive cl_call : Type :=
| clGetPlatformIDs (num_entries : nat)
| clGetDeviceIDs (platform : option handle) (device_type : Z) (num_entries : nat)
| clGetPlatformInfo (platform : option handle) (param : platform_info)
| clGetDeviceInfo (device : option handle) (param : device_info)
| clCreateContext (devices : list (option handle))
| clCreateProgramWithSource (sources : list string)
| clBuildProgram (devices : list (option handle)) (options : string)
| clGetProgramBuildInfo (device : option handle)
| clGetProgramInfo (param : program_info)
| clCreateCommandQueue (device : option handle)
| clCreateBuffer (bytes : N)
| clEnqueueWriteBuffer (buffer : handle)
| clCreateProgramWithBinary (devices : list (option handle)) (binary : list byte)
| clCreateKernel (name : string)
| clSetKernelArg (idx : Z) (arg : karg)
| clEnqueueTask
| clFlush
| clFinish
| clEnqueueReadBuffer (buffer : handle)
| clReleaseContext (context : handle)
| clReleaseCommandQueue (queue : handle)
| clReleaseMemObject (buffer : handle)
| clReleaseProgram (program : handle)
| clReleaseKernel (kernel : handle).

(** Reading [n] consecutive elements through the pointer [&v[off]]. *)
Definition ptr_read {A} (v : list A) (off n : nat) : list (option A) :=
  map (λ k, v !! (off + k)%nat) (seq 0 n).

(** Whether all the slots read through a pointer lie inside the vector. *)
Definition in_bounds {A} (read : list (option A)) : Prop :=
  Forall is_Some read.

(** ** The world and the monad *)

Record World : Type := mkWorld {
  cout : string;                         (* standard output so far *)
  cerr : string;                         (* standard error so far *)
  files : list (string * list byte);     (* files opened for writing, with content *)
  calls : list (cl_call * cl_int)        (* runtime calls, with returned status *)
}.

Definition world0 : World := mkWorld "" "" [] [].

(** The world after some more runtime calls. *)
Definition add_calls (w : World) (l : list (cl_call * cl_int)) : World :=
  mkWorld (cout w) (cerr w) (files w) (calls w ++ l).

Inductive outcome (A : Type) : Type :=
| Normal (a : A)                (* control reaches the next statement *)
| Thrown (e : exception)        (* an exception propagates *)
| Returned (status : Z)         (* [return status;] in [main] *)
| Exited (status : Z).          (* [std::exit(status)]: the process ends there *)
Arguments Normal {A} a.
Arguments Thrown {A} e.
Arguments Returned {A} status.
Arguments Exited {A} status.

Definition M (A : Type) : Type := World → outcome A * World.

Global Instance M_ret : MRet M := λ A a w, (Normal a, w).
Global Instance M_bind : MBind M := λ A B f m w,
  match m w with
  | (Normal a, w') => f a w'
  | (Thrown e, w') => (Thrown e, w')
  | (Returned s, w') => (Returned s, w')
  | (Exited s, w') => (Exited s, w')
  end.

Definition throw {A} (e : exception) : M A := λ w, (Thrown e, w).
Definition return_ {A} (status : Z) : M A := λ w, (Returned status, w).
Definition exit_ {A} (status : Z) : M A := λ w, (Exited status, w).

Definition cout_put (s : string) : M unit := λ w,
  (Normal tt, mkWorld (cout w +:+ s) (cerr w) (files w) (calls w)).
Definition cerr_put (s : string) : M unit := λ w,
  (Normal tt, mkWorld (cout w) (cerr w +:+ s) (files w) (calls w)).
Definition file_put (name : string) (content : list byte) : M unit := λ w,
  (Normal tt, mkWorld (cout w) (cerr w) (files w ++ [(name, content)]) (calls w)).
Definition call_log (c : cl_call) (status : cl_int) : M unit := λ w,
  (Normal tt, mkWorld (cout w) (cerr w) (files w) (calls w ++ [(c, status)])).

(** [for (i = from; i < from + count; i++) body(i)]; a [return] or a [throw]
    in the body leaves the loop, since the bind of [M] stops there. *)
Fixpoint for_range (from count : nat) (body : nat → M unit) : M unit :=
  match count with
  | O => mret tt
  | S count' => body from ;; for_range (S from) count' body
  end.

(** Leaving a block in which local objects are alive whose destructors make
    the runtime calls [released]: the destructors run when control reaches
    the end of the block, when an exception propagates out of it and when
    [main] returns from inside it; [std::exit] destroys no local object. *)
Definition leave {A} (released : list (cl_call * cl_int))
    (r : outcome A * World) : outcome A * World :=
  match r with
  | (Exited status, w) => (Exited status, w)
  | (o, w) => (o, add_calls w released)
  end.

Definition scope {A} (released : list (cl_call * cl_int)) (block : M A) : M A :=
  λ w, leave released (block w).

(** What the destructor of a [std::unique_ptr] holding [p] does: it calls
    the deleter on [p] unless [p] is null, and ignores what the deleter
    returns.  [status] is what the runtime answers to the release. *)
Definition destroy (p : handle) (release : handle → cl_call)
    (status : handle → cl_int) : list (cl_call * cl_int) :=
  if (p =? null)%N then [] else [(release p, status p)].

(** [std::unique_ptr<T, decltype(&release)> name(p, release);] followed by
    the rest of the enclosing block. *)
Definition unique_ptr {A} (p : handle) (release : handle → cl_call)
    (status : handle → cl_int) (block : M A) : M A :=
  scope (destroy p release status) block.

(** What [main] hands to the operating system: the statement
    [try { body } catch (const std::exception& e) { std::cerr << e.what() <<
    std::endl; return EXIT_FAILURE; } return EXIT_SUCCESS;]. *)
Definition try_main (body : M unit) : World → Z * World := λ w,
  match body w with
  | (Normal _, w') => (EXIT_SUCCESS, w')
  | (Returned status, w') => (status, w')
  | (Exited status, w') => (status, w')
  | (Thrown e, w') => (EXIT_FAILURE, snd (cerr_put (what e +:+ endl) w'))
  end.

(** ** The compiler, [src/main.cpp] *)

Module oclc.

(** The answers of the OpenCL runtime.  An enumeration call answers with its
    status, the handles it stored into the caller's buffer and the count it
    reports through its last argument; an information call with its status
    and the text it stored; a creation call with its status and the handle
    it returns; a release call with its status. *)
Record Runtime : Type := mkRuntime {
  rt_GetPlatformIDs : nat → cl_int * list handle * nat;
  rt_GetDeviceIDs : option handle → Z → nat → cl_int * list handle * nat;
  rt_GetPlatformInfo : option handle → platform_info → cl_int * string;
  rt_GetDeviceInfo : option handle → device_info → cl_int * string;
  rt_CreateContext : list (option handle) → cl_int * handle;
  rt_CreateProgramWithSource : list string → cl_int * handle;
  rt_BuildProgram : list (option handle) → string → cl_int;
  rt_BuildLog : option handle → cl_int * string;
  rt_NumDevices : cl_int * nat;
  rt_BinarySizes : cl_int * (nat → N);
  rt_Binaries : cl_int * (nat → list byte);
  rt_ReleaseProgram : handle → cl_int;
  rt_ReleaseContext : handle → cl_int
}.

(** Everything [main] depends on besides its command line. *)
Record Env : Type := mkEnv {
  rt : Runtime;
  (* [kErrorMessageMap] of oclErrorCode.h *)
  kErrorMessageMap : gmap Z string;
  (* [what()] of the [std::out_of_range] that [unordered_map::at] throws *)
  at_what : string;
  (* what KOTLIB_THROW_IF (kotlib/macro.h) makes of the message it is given *)
  throw_text : string → string;
  (* the text [kot::OptionParser::showUsage] prints *)
  usage : string;
  (* content of a file that can be opened for reading *)
  fs_read : string → option string;
  (* whether a file can be opened for writing *)
  fs_writable : string → bool
}.

(** The command line as [kot::OptionParser] hands it over. *)
Record Options : Type := mkOptions {
  opt_all : bool;
  opt_list : bool;
  opt_device_type : string;
  opt_output : string;
  opt_option : string;
  opt_platform : nat;
  opt_device : nat;
  opt_fsyntax_only : bool;
  opt_help : bool;
  opt_arguments : list string
}.

Definition kNDefaultPlatformEntry : nat := 16.
Definition kNDefaultDeviceEntry : nat := 16.

(** The initializer stores [CL_DEVICE_TYPE_ALL] (an unsigned constant) in a
    [cl_int]. *)
Definition kDeviceTypeMap : gmap string Z :=
  <["all" := to_cl_int CL_DEVICE_TYPE_ALL]>
  (<["default" := to_cl_int CL_DEVICE_TYPE_DEFAULT]>
  (<["cpu" := to_cl_int CL_DEVICE_TYPE_CPU]>
  (<["gpu" := to_cl_int CL_DEVICE_TYPE_GPU]> ∅))).

(** [removeSuffix], lines 109-113. *)
Definition removeSuffix (filename : string) : string :=
  substr filename 0 (find_last_of filename ".").

(** The file name computed at lines 302-305 for device [i] of [nDevice]. *)
Definition artifact_filename (output basename : string) (nDevice i : nat) : string :=
  let filename := if String.eqb output "" then basename +:+ ".bin" else output in
  if (1 <? nDevice)%nat then filename +:+ "." +:+ to_string_size i else filename.

(** The runtime writes the handles it found over the front of the buffer. *)
Definition store_front {A} (got buf : list A) : list A :=
  take (length buf) got ++ drop (length got) buf.

Section program.
Context (E : Env).

(** [m.at(key)]: the mapped value, or [std::out_of_range]. *)
Definition map_at {K V} `{Countable K} (m : gmap K V) (key : K) : M V :=
  match m !! key with
  | Some v => mret v
  | None => throw (out_of_range (at_what E))
  end.

(** [KOTLIB_THROW_IF(cond, std::runtime_error, msg)]: the message expression
    is evaluated only when the condition holds, and evaluating it can itself
    throw. *)
Definition KOTLIB_THROW_IF (cond : bool) (msg : M string) : M unit :=
  if cond then text ← msg; throw (runtime_error (throw_text E text))
  else mret tt.

(** Lines 31-32. *)
Definition OCLC_CHECK_ERROR (errCode : cl_int) : M unit :=
  KOTLIB_THROW_IF (negb (errCode =? CL_SUCCESS)%Z)
    (text ← map_at (kErrorMessageMap E) errCode;
     mret ("[OpenCL] [" +:+ to_string errCode +:+ "] " +:+ text)).

(** Lines 34-35. *)
Definition OCLC_CHECK_ERROR_WITH_MSG (errCode : cl_int) (msg : string) : M unit :=
  KOTLIB_THROW_IF (negb (errCode =? CL_SUCCESS)%Z)
    (text ← map_at (kErrorMessageMap E) errCode;
     mret ("[OpenCL] [" +:+ to_string errCode +:+ "] " +:+ text +:+ endl +:+ msg)).

(** Lines 43-52. *)
Definition getPlatformIds (nPlatformEntry : nat) : M (list handle) :=
  let platformIds := replicate nPlatformEntry null in
  let '(errCode, got, nPlatform) := rt_GetPlatformIDs (rt E) nPlatformEntry in
  call_log (clGetPlatformIDs nPlatformEntry) errCode;;
  let platformIds := store_front got platformIds in
  OCLC_CHECK_ERROR errCode;;
  mret (resize nPlatform null platformIds).

(** Lines 62-71. *)
Definition getDeviceIds (platformId : option handle) (nDeviceEntry : nat)
    (deviceType : Z) : M (list handle) :=
  let deviceIds := replicate nDeviceEntry null in
  let '(errCode, got, nDevice) :=
    rt_GetDeviceIDs (rt E) platformId deviceType nDeviceEntry in
  call_log (clGetDeviceIDs platformId deviceType nDeviceEntry) errCode;;
  let deviceIds := store_front got deviceIds in
  OCLC_CHECK_ERROR errCode;;
  mret (resize nDevice null deviceIds).

(** [readSource] on one file, lines 79-85. *)
Definition readSource1 (filename : string) : M string :=
  match fs_read E filename with
  | None => throw (runtime_error (throw_text E ("Failed to read file: " +:+ filename)))
  | Some text => mret text
  end.

(** [readSource] on a vector of file names, lines 93-101. *)
Fixpoint readSource (filenames : list string) : M (list string) :=
  match filenames with
  | [] => mret []
  | filename :: rest =>
      src ← readSource1 filename;
      srcs ← readSource rest;
      mret (src :: srcs)
  end.

(** Lines 120-133. *)
Definition showPlatformInfo (platformId : option handle) : M unit :=
  let '(errCode, info) := rt_GetPlatformInfo (rt E) platformId CL_PLATFORM_NAME in
  call_log (clGetPlatformInfo platformId CL_PLATFORM_NAME) errCode;;
  OCLC_CHECK_ERROR errCode;;
  cout_put ("  CL_PLATFORM_NAME: " +:+ info +:+ endl);;
  let '(errCode, info) := rt_GetPlatformInfo (rt E) platformId CL_PLATFORM_VERSION in
  call_log (clGetPlatformInfo platformId CL_PLATFORM_VERSION) errCode;;
  OCLC_CHECK_ERROR errCode;;
  cout_put ("  CL_PLATFORM_VERSION: " +:+ info +:+ endl).

(** Lines 140-153. *)
Definition showDeviceInfo (deviceId : option handle) : M unit :=
  let '(errCode, info) := rt_GetDeviceInfo (rt E) deviceId CL_DEVICE_NAME in
  call_log (clGetDeviceInfo deviceId CL_DEVICE_NAME) errCode;;
  OCLC_CHECK_ERROR errCode;;
  cout_put ("    CL_DEVICE_NAME: " +:+ info +:+ endl);;
  let '(errCode, info) := rt_GetDeviceInfo (rt E) deviceId CL_DEVICE_VERSION in
  call_log (clGetDeviceInfo deviceId CL_DEVICE_VERSION) errCode;;
  OCLC_CHECK_ERROR errCode;;
  cout_put ("    CL_DEVICE_VERSION: " +:+ info +:+ endl).

(** Lines 161-178. *)
Definition showInfo (platformIds : list handle) (deviceType : Z) : M unit :=
  let MAX_DEVICE_IDS := 8%nat in
  cout_put "============================= Platform Information =============================";;
  for_range 0 (length platformIds) (λ i,
    cout_put (String (ascii_of_nat 10) "Platform: " +:+ to_string_size i +:+ endl);;
    showPlatformInfo (platformIds !! i);;
    deviceIds ← getDeviceIds (platformIds !! i) MAX_DEVICE_IDS deviceType;
    for_range 0 (length deviceIds) (λ j,
      cout_put ("  Device: " +:+ to_string_size j +:+ endl);;
      showDeviceInfo (deviceIds !! j)));;
  cout_put ("================================================================================" +:+ endl).

(** One round of the loop of lines 298-312: device [i] of [nDevice]. *)
Definition write_binary (op : Options) (basename : string) (nDevice : nat)
    (binSizes : nat → N) (bins : nat → list byte) (i : nat) : M unit :=
  if (binSizes i =? 0)%N then mret tt     (* bins[i] == nullptr: continue *)
  else
    let filename := artifact_filename (opt_output op) basename nDevice i in
    if fs_writable E filename
    then file_put filename (resize (N.to_nat (binSizes i)) x00 (bins i))
    else cerr_put ("Failed to open: " +:+ filename +:+ endl).

(** Lines 280-312: the binaries are fetched from the built program and
    written out, one file per device that has one. *)
Definition extract_binaries (op : Options) : M unit :=
  let '(errCode, nDevice) := rt_NumDevices (rt E) in
  call_log (clGetProgramInfo CL_PROGRAM_NUM_DEVICES) errCode;;
  OCLC_CHECK_ERROR errCode;;
  let '(errCode, binSizes) := rt_BinarySizes (rt E) in
  call_log (clGetProgramInfo CL_PROGRAM_BINARY_SIZES) errCode;;
  OCLC_CHECK_ERROR errCode;;
  let '(errCode, bins) := rt_Binaries (rt E) in
  call_log (clGetProgramInfo CL_PROGRAM_BINARIES) errCode;;
  OCLC_CHECK_ERROR errCode;;
  let basename := removeSuffix (default "" (opt_arguments op !! 0%nat)) in
  for_range 0 nDevice (write_binary op basename nDevice binSizes bins).

(** The [switch] of lines 259-275 on the status of [clBuildProgram]. *)
Definition check_build (errCode : cl_int) (device : option handle) : M unit :=
  if (errCode =? CL_SUCCESS)%Z then mret tt
  else if (errCode =? CL_BUILD_PROGRAM_FAILURE)%Z then
    let '(logStatus, buildLog) := rt_BuildLog (rt E) device in
    call_log (clGetProgramBuildInfo device) logStatus;;
    OCLC_CHECK_ERROR_WITH_MSG errCode buildLog
  else if (errCode =? CL_INVALID_BUILD_OPTIONS)%Z then OCLC_CHECK_ERROR errCode
  else OCLC_CHECK_ERROR errCode.

(** Lines 257-312: the build request, the [switch] on its status, the exit
    of the syntax-only mode and the extraction. *)
Definition build_and_extract (op : Options) (deviceIds : list handle) : M unit :=
  let di := opt_device op in
  let devices := ptr_read deviceIds di (length deviceIds) in
  let errCode := rt_BuildProgram (rt E) devices (opt_option op) in
  call_log (clBuildProgram devices (opt_option op)) errCode;;
  check_build errCode (deviceIds !! di);;
  (if opt_fsyntax_only op then return_ EXIT_SUCCESS else mret tt);;
  extract_binaries op.

(** The [try] block of [main], lines 191-312, after [op.parse].  [context]
    (lines 235-236) and [program] (lines 247-254) are [std::unique_ptr]s
    with [clReleaseContext] and [clReleaseProgram] as deleters: each lives
    to the end of the block.  The indices [pi] and [di] are used unchecked
    (lines 231, 236, 258, 266): a slot they reach outside the vector is
    [None], see [in_range]. *)
Definition main_body (op : Options) : M unit :=
  (if opt_help op then cout_put (usage E);; return_ EXIT_SUCCESS else mret tt);;
  platformIds ← getPlatformIds kNDefaultPlatformEntry;
  (if opt_list op then
     deviceType ← map_at kDeviceTypeMap (opt_device_type op);
     showInfo platformIds deviceType;;
     return_ EXIT_SUCCESS
   else mret tt);;
  let args := opt_arguments op in
  (if (length args <? 1)%nat then
     cerr_put ("Please specify only one or more source file" +:+ endl);;
     return_ EXIT_FAILURE
   else mret tt);;
  let pi := opt_platform op in
  let di := opt_device op in
  deviceType ← map_at kDeviceTypeMap (opt_device_type op);
  deviceIds ← getDeviceIds (platformIds !! pi) kNDefaultDeviceEntry deviceType;
  let devices := ptr_read deviceIds di (length deviceIds) in
  let '(errCode, context) := rt_CreateContext (rt E) devices in
  call_log (clCreateContext devices) errCode;;
  unique_ptr context clReleaseContext (rt_ReleaseContext (rt E)) (
    OCLC_CHECK_ERROR errCode;;
    kernelSources ← readSource (opt_arguments op);
    let '(errCode, program) := rt_CreateProgramWithSource (rt E) kernelSources in
    call_log (clCreateProgramWithSource kernelSources) errCode;;
    unique_ptr program clReleaseProgram (rt_ReleaseProgram (rt E)) (
      OCLC_CHECK_ERROR errCode;;
      build_and_extract op deviceIds)).

(** [main], lines 187-319: exit status and final world. *)
Definition main (op : Options) : World → Z * World :=
  try_main (main_body op).

End program.

(** A whole run, from the empty world. *)
Definition run (E : Env) (op : Options) : Z * World := main E op world0.

(** *** Vocabulary for the statements about [main] *)

(** The command line with the flag "all" set to [b]. *)
Definition with_all (b : bool) (op : Options) : Options :=
  mkOptions b (opt_list op) (opt_device_type op) (opt_output op) (opt_option op)
    (opt_platform op) (opt_device op) (opt_fsyntax_only op) (opt_help op)
    (opt_arguments op).

(** A call other than the build request and the queries on the built
    program: the calls before the build request and the releases are such. *)
Definition early (c : cl_call * cl_int) : Prop :=
  match c.1 with
  | clBuildProgram _ _ | clGetProgramInfo _ => False
  | _ => True
  end.

(** A query on the built program, the first step of binary extraction. *)
Definition extraction (c : cl_call * cl_int) : Prop :=
  match c.1 with
  | clGetProgramInfo _ => True
  | _ => False
  end.

(** A build request that the runtime reports as successful. *)
Definition build_success (c : cl_call * cl_int) : Prop :=
  match c.1 with
  | clBuildProgram _ _ => c.2 = CL_SUCCESS
  | _ => False
  end.

(** The query that fetches the binaries, answered with success: the last
    runtime call before the writing loop. *)
Definition fetched : cl_call * cl_int :=
  (clGetProgramInfo CL_PROGRAM_BINARIES, CL_SUCCESS).

(** A release of the program or of the context, as the deleters of the two
    [std::unique_ptr]s of [main] make them when the [try] block is left. *)
Definition release (c : cl_call * cl_int) : Prop :=
  match c.1 with
  | clReleaseProgram _ | clReleaseContext _ => True
  | _ => False
  end.

(** The call [c] is the last call of [l] but for at most [n] such
    releases. *)
Definition last_but_releases (n : nat) (l : list (cl_call * cl_int))
    (c : cl_call * cl_int) : Prop :=
  ∃ before after, l = (before ++ c :: after)%list ∧ Forall release after ∧
                  (length after ≤ n)%nat.




Section outputs.
Context (E : Env) (op : Options).

(** What the built program reports: the device count, the size of each
    binary and its bytes as they fill the buffer allocated for them. *)
Definition nDevice : nat := (rt_NumDevices (rt E)).2.
Definition binSize (i : nat) : N := (rt_BinarySizes (rt E)).2 i.
Definition binary (i : nat) : list byte :=
  resize (N.to_nat (binSize i)) x00 ((rt_Binaries (rt E)).2 i).
Definition has_binary (i : nat) : bool := negb (binSize i =? 0)%N.

(** The name of the file for device [i]. *)
Definition filename_of (i : nat) : string :=
  artifact_filename (opt_output op)
    (removeSuffix (default "" (opt_arguments op !! 0%nat))) nDevice i.

(** The devices whose file is written, and those whose file cannot be
    opened, in enumeration order. *)
Definition persisted : list nat :=
  List.filter (λ i, has_binary i && fs_writable E (filename_of i)) (seq 0 nDevice).
Definition failed : list nat :=
  List.filter (λ i, has_binary i && negb (fs_writable E (filename_of i))) (seq 0 nDevice).

Definition written_files : list (string * list byte) :=
  map (λ i, (filename_of i, binary i)) persisted.
Definition failure_log : string :=
  foldr String.append "" (map (λ i, "Failed to open: " +:+ filename_of i +:+ endl) failed).

(** How the [try] block of [main] can end, started before any output.
    Normally: only when binaries are asked for, after the writing loop. *)
Definition ends_normally (w : World) : Prop :=
  opt_fsyntax_only op = false ∧
  files w = written_files ∧ cerr w = failure_log ∧ fetched ∈ calls w.

(** With an exception: nothing was written, the writing loop was not
    reached and, in syntax-only mode, neither a successful build nor a
    query on the program happened. *)
Definition ends_thrown (w : World) : Prop :=
  files w = [] ∧ cerr w = "" ∧ (fetched ∉ calls w) ∧
  (opt_fsyntax_only op = true →
   Forall (λ c, ¬ extraction c ∧ ¬ build_success c) (calls w)).

(** With a [return]: nothing was written, no query on the program happened
    and, if a build succeeded, the status is [EXIT_SUCCESS] and the build
    request is the last call but for at most [n] releases; at the end of the
    run these are the releases of the program and of the context. *)
Definition ends_returned_within (n : nat) (status : Z) (w : World) : Prop :=
  files w = [] ∧ (fetched ∉ calls w) ∧ Forall (λ c, ¬ extraction c) (calls w) ∧
  ∀ c, c ∈ calls w → build_success c →
       status = EXIT_SUCCESS ∧ last_but_releases n (calls w) c.

Definition ends_returned : Z → World → Prop := ends_returned_within 2.

End outputs.

End oclc.

(** ** Reasoning about computations in [M] *)

(** [triple P m Q X R]: from a world satisfying [P], the computation [m]
    either ends normally in a world satisfying [Q], throws into a world
    satisfying [X], or ends the program with a status, by a [return] from
    [main] or by [std::exit], in a world satisfying [R]. *)
Definition triple {A} (P : World → Prop) (m : M A) (Q : A → World → Prop)
    (X : exception → World → Prop) (R : Z → World → Prop) : Prop :=
  ∀ w, P w →
    match m w with
    | (Normal a, w') => Q a w'
    | (Thrown e, w') => X e w'
    | (Returned s, w') => R s w'
    | (Exited s, w') => R s w'
    end.

(** [m] keeps the invariant [I], however it ends. *)
Definition preserves {A} (I : World → Prop) (m : M A) : Prop :=
  triple I m (λ _, I) (λ _, I) (λ _, I).

(** The invariant of [oclc.main] up to the build request, which the
    releases keep: nothing written to a file or to standard error, and no
    build request or query on the program among the runtime calls. *)
Definition before_build (w : World) : Prop :=
  files w = [] ∧ cerr w = "" ∧ Forall oclc.early (calls w).

(** ** The verifier, [src/test/main.cpp] *)

Module oclc_test.

(** Arithmetic on [float] (binary32: 24 bits of precision, [emax] = 128). *)
Definition fadd : spec_float → spec_float → spec_float := SFadd 24 128.
Definition fsub : spec_float → spec_float → spec_float := SFsub 24 128.

(** The conversion of a [float] to [double] (binary64: 53 bits, [emax] =
    1024): the same value, in the representation of the wider format. *)
Definition to_double (x : spec_float) : spec_float := SFldexp 53 1024 x 0.

(** The [double] literal [1.0e-5], i.e. 0x1.4f8b588e368f1p-17. *)
Definition tolerance : spec_float := S754_finite false 5902958103587057 (-69).

(** The test of line 252, [std::abs(x + y - z) > 1.0e-5]: the left operand
    is computed in [float] and converted to [double] for the comparison. *)
Definition mismatch (x y z : spec_float) : bool :=
  SFltb tolerance (to_double (SFabs (fsub (fadd x y) z))).

(** A host buffer of [float]. *)
Abbreviation buffer := (nat → spec_float) (only parsing).

Record Env : Type := mkEnv {
  rt_GetPlatformIDs : nat → cl_int * list handle * nat;
  rt_GetDeviceIDs : option handle → Z → nat → cl_int * list handle * nat;
  (* a creation call answers with its status and the handle it returns *)
  rt_CreateContext : list (option handle) → cl_int * handle;
  rt_CreateCommandQueue : option handle → cl_int * handle;
  (* the k-th buffer created: status and handle *)
  rt_CreateBuffer : nat → cl_int * handle;
  rt_EnqueueWriteBuffer : handle → buffer → cl_int;
  rt_CreateProgramWithBinary : list (option handle) → list byte → cl_int * handle;
  rt_CreateKernel : string → cl_int * handle;
  rt_SetKernelArg : Z → karg → cl_int;
  rt_EnqueueTask : cl_int;
  rt_Flush : cl_int;
  rt_Finish : cl_int;
  (* status and the content read back into the host buffer *)
  rt_EnqueueReadBuffer : handle → cl_int * buffer;
  (* the status of a release call; the deleters ignore it *)
  rt_ReleaseKernel : handle → cl_int;
  rt_ReleaseProgram : handle → cl_int;
  rt_ReleaseMemObject : handle → cl_int;
  rt_ReleaseCommandQueue : handle → cl_int;
  rt_ReleaseContext : handle → cl_int;
  (* what KOTLIB_THROW_IF (kotlib/macro.h) makes of the message it is given *)
  throw_text : string → string;
  (* content of a file that can be opened for reading *)
  fs_read : string → option (list byte)
}.

Definition kNDefaultPlatformEntry : nat := 16.
Definition kNDefaultDeviceEntry : nat := 16.

(** [N] of line 169. *)
Definition N_elements : nat := Z.to_nat 65536.

Definition sizeof_float : N := 4.
Definition sizeof_int : N := 4.
Definition sizeof_cl_mem : N := 8.

Section program.
Context (E : Env).

Definition KOTLIB_THROW_IF (cond : bool) (msg : string) : M unit :=
  if cond then throw (runtime_error (throw_text E msg)) else mret tt.

(** One runtime call whose status is checked on the spot. *)
Definition checked (c : cl_call) (errCode : cl_int) (msg : string) : M unit :=
  call_log c errCode;;
  KOTLIB_THROW_IF (negb (errCode =? CL_SUCCESS)%Z) msg.

(** Lines 79-88. *)
Definition getPlatformIds (nPlatformEntry : nat) : M (list handle) :=
  let platformIds := replicate nPlatformEntry null in
  let '(errCode, got, nPlatform) := rt_GetPlatformIDs E nPlatformEntry in
  call_log (clGetPlatformIDs nPlatformEntry) errCode;;
  let platformIds := oclc.store_front got platformIds in
  KOTLIB_THROW_IF (negb (errCode =? CL_SUCCESS)%Z) "clGetPlatformIDs() failed";;
  mret (resize nPlatform null platformIds).

(** Lines 98-107. *)
Definition getDeviceIds (platformId : option handle) (nDeviceEntry : nat)
    (deviceType : Z) : M (list handle) :=
  let deviceIds := replicate nDeviceEntry null in
  let '(errCode, got, nDevice) :=
    rt_GetDeviceIDs E platformId deviceType nDeviceEntry in
  call_log (clGetDeviceIDs platformId deviceType nDeviceEntry) errCode;;
  let deviceIds := oclc.store_front got deviceIds in
  KOTLIB_THROW_IF (negb (errCode =? CL_SUCCESS)%Z) "clGetDeviceIDs() failed";;
  mret (resize nDevice null deviceIds).

(** [setKernelArgsImpl], lines 119-140: the overload for a single argument
    is the case of an empty [rest].  The status is held in a [cl_uint]. *)
Fixpoint setKernelArgsImpl (idx : Z) (first : karg) (rest : list karg) : M Z :=
  match rest with
  | [] =>
      let status := rt_SetKernelArg E idx first in
      call_log (clSetKernelArg idx first) status;;
      mret (to_cl_uint status)
  | next :: rest' =>
      let status := rt_SetKernelArg E idx first in
      call_log (clSetKernelArg idx first) status;;
      let errCode := to_cl_uint status in
      if (errCode =? to_cl_uint CL_SUCCESS)%Z
      then setKernelArgsImpl (idx + 1) next rest'
      else mret errCode
  end.

(** [setKernelArgs], lines 149-154; it does not compile without arguments. *)
Definition setKernelArgs (first : karg) (rest : list karg) : M Z :=
  setKernelArgsImpl 0 first rest.

(** The body of the loop of lines 251-256, at index [i]. *)
Definition check_element (hostX hostY hostZ : buffer) (i : nat) : M unit :=
  if mismatch (hostX i) (hostY i) (hostZ i) then
    cerr_put ("Result verification failed at element " +:+ to_string_size i
              +:+ "!" +:+ endl);;
    return_ EXIT_FAILURE
  else mret tt.

(** Lines 251-259: the comparison loop and what follows it. *)
Definition check_result (hostX hostY hostZ : buffer) : M unit :=
  for_range 0 N_elements (check_element hostX hostY hostZ);;
  cout_put ("Test PASSED" +:+ endl);;
  return_ EXIT_SUCCESS.

(** Lines 213-245, in the scope of the context, the queue and the three
    buffers: the kernel file is read, the program and the kernel are made
    (two more [std::unique_ptr]s), the kernel is run and the output buffer
    read back.  [std::exit] at line 217 ends the process without destroying
    any of the local objects. *)
Definition load_and_run (kernelFile : string) (devices : list (option handle))
    (deviceX deviceY deviceZ : handle) : M buffer :=
  match fs_read E kernelFile with
  | None =>
      cerr_put ("Failed to kernel binary: " +:+ kernelFile +:+ endl);;
      exit_ EXIT_FAILURE
  | Some kernelBin =>
      let '(errCode, program) := rt_CreateProgramWithBinary E devices kernelBin in
      call_log (clCreateProgramWithBinary devices kernelBin) errCode;;
      unique_ptr program clReleaseProgram (rt_ReleaseProgram E) (
        KOTLIB_THROW_IF (negb (errCode =? CL_SUCCESS)%Z)
          "clCreateProgramWithBinary() failed";;
        let '(errCode, kernel) := rt_CreateKernel E "vecAdd" in
        call_log (clCreateKernel "vecAdd") errCode;;
        unique_ptr kernel clReleaseKernel (rt_ReleaseKernel E) (
          KOTLIB_THROW_IF (negb (errCode =? CL_SUCCESS)%Z) "clCreateKernel() failed";;
          errCode ← setKernelArgs (Karg sizeof_cl_mem (Z.of_N deviceZ))
            [Karg sizeof_cl_mem (Z.of_N deviceX); Karg sizeof_cl_mem (Z.of_N deviceY);
             Karg sizeof_int (Z.of_nat N_elements)];
          KOTLIB_THROW_IF (negb (to_cl_int errCode =? CL_SUCCESS)%Z)
            "setKernelArgs() failed";;
          checked clEnqueueTask (rt_EnqueueTask E) "clEnqueueTask() failed";;
          checked clFlush (rt_Flush E) "clFlush() failed";;
          checked clFinish (rt_Finish E) "clFinish() failed";;
          let '(errCode, readBack) := rt_EnqueueReadBuffer E deviceZ in
          checked (clEnqueueReadBuffer deviceZ) errCode "clEnqueueReadBuffer() failed";;
          mret readBack))
  end.

(** The [try] block, lines 188-245; it yields the output buffer read back
    from the device.  [hostX] and [hostY] are the random inputs.  The
    context, the queue, the three buffers, the program and the kernel are
    [std::unique_ptr]s whose deleters release them when the block is left,
    in the reverse order of their declarations. *)
Definition device_run (kernelFile : string) (hostX hostY : buffer) : M buffer :=
  let bytes := (N.of_nat N_elements * sizeof_float)%N in
  let hostZ : buffer := λ _, S754_zero false in
  platformIds ← getPlatformIds 1;
  deviceIds ← getDeviceIds (platformIds !! 0%nat) 1 CL_DEVICE_TYPE_DEFAULT;
  let devices := ptr_read deviceIds 0 1 in
  let '(errCode, context) := rt_CreateContext E devices in
  call_log (clCreateContext devices) errCode;;
  unique_ptr context clReleaseContext (rt_ReleaseContext E) (
    KOTLIB_THROW_IF (negb (errCode =? CL_SUCCESS)%Z) "clCreateContext() failed";;
    let '(errCode, cmdQueue) := rt_CreateCommandQueue E (deviceIds !! 0%nat) in
    call_log (clCreateCommandQueue (deviceIds !! 0%nat)) errCode;;
    unique_ptr cmdQueue clReleaseCommandQueue (rt_ReleaseCommandQueue E) (
      KOTLIB_THROW_IF (negb (errCode =? CL_SUCCESS)%Z) "clCreateCommandQueue() failed";;
      let '(statusX, deviceX) := rt_CreateBuffer E 0 in
      call_log (clCreateBuffer bytes) statusX;;
      unique_ptr deviceX clReleaseMemObject (rt_ReleaseMemObject E) (
        let '(statusY, deviceY) := rt_CreateBuffer E 1 in
        call_log (clCreateBuffer bytes) statusY;;
        unique_ptr deviceY clReleaseMemObject (rt_ReleaseMemObject E) (
          let '(statusZ, deviceZ) := rt_CreateBuffer E 2 in
          call_log (clCreateBuffer bytes) statusZ;;
          unique_ptr deviceZ clReleaseMemObject (rt_ReleaseMemObject E) (
            checked (clEnqueueWriteBuffer deviceX)
              (rt_EnqueueWriteBuffer E deviceX hostX) "clEnqueueWriteBuffer() failed";;
            checked (clEnqueueWriteBuffer deviceY)
              (rt_EnqueueWriteBuffer E deviceY hostY) "clEnqueueWriteBuffer() failed";;
            checked (clEnqueueWriteBuffer deviceZ)
              (rt_EnqueueWriteBuffer E deviceZ hostZ) "clEnqueueWriteBuffer() failed";;
            load_and_run kernelFile devices deviceX deviceY deviceZ))))).

(** [main], lines 165-260, on the arguments after the program name.  The
    handler of the source encloses the device run only; the comparison that
    follows it throws nothing.  The host buffers are [std::unique_ptr]s over
    aligned memory; their deleter frees memory and calls no runtime. *)
Definition main (args : list string) (hostX hostY : buffer)
    : World → Z * World :=
  match args with
  | [] => try_main
      (cerr_put ("Please specify only one kernel binary file" +:+ endl);;
       return_ EXIT_FAILURE)
  | kernelFile :: _ => try_main
      (hostZ ← device_run kernelFile hostX hostY;
       check_result hostX hostY hostZ)
  end.

End program.

(** Binding every argument of [args] at the consecutive indices [idx],
    [idx + 1], ... in the order given: the calls, each with the status the
    runtime answers. *)
Fixpoint bindings (E : Env) (idx : Z) (args : list karg) : list (cl_call * cl_int) :=
  match args with
  | [] => []
  | a :: args' =>
      (clSetKernelArg idx a, rt_SetKernelArg E idx a) :: bindings E (idx + 1) args'
  end.

(** The runtime accepted the binding. *)
Definition accepted (b : cl_call * cl_int) : Prop := b.2 = CL_SUCCESS.

(** The check as the specification writes it:
    [|output - (inputA + inputB)| <= 1e-5], on the same number formats. *)
Definition deviation (x y z : spec_float) : spec_float :=
  to_double (SFabs (fsub z (fadd x y))).
Definition within_tolerance (x y z : spec_float) : bool :=
  SFleb (deviation x y z) tolerance.

(** The line the verifier prints for a mismatch at index [i]. *)
Definition failure_line (i : nat) : string :=
  "Result verification failed at element " +:+ to_string_size i +:+ "!" +:+ endl.

End oclc_test.

(** ** A sample installation

    Two platforms with two devices each, every call answered with success
    unless stated otherwise, the context 301, the queue 302, the buffers
    201 to 203, the program 401 and the kernel 501, and a message table
    with a few of the codes of CL/cl.h.  The enumeration calls answer as OpenCL specifies: they store at
    most [num_entries] handles and report the number available. *)

Module sample.

Definition platforms : list handle := [11; 12]%N.
Definition devices : list handle := [101; 102]%N.

Definition table : gmap Z string :=
  <[(-5)%Z := "CL_OUT_OF_RESOURCES"]>
  (<[(-11)%Z := "CL_BUILD_PROGRAM_FAILURE"]>
  (<[(-43)%Z := "CL_INVALID_BUILD_OPTIONS"]> ∅)).

Definition runtime (build_status : Z) : oclc.Runtime :=
  oclc.mkRuntime
    (λ n, (CL_SUCCESS, take n platforms, length platforms))
    (λ _ _ n, (CL_SUCCESS, take n devices, length devices))
    (λ _ _, (CL_SUCCESS, "Sample Platform"))
    (λ _ _, (CL_SUCCESS, "Sample Device"))
    (λ _, (CL_SUCCESS, 301%N))
    (λ _, (CL_SUCCESS, 401%N))
    (λ _ _, build_status)
    (λ _, (CL_SUCCESS, "error: expected ';'"))
    (CL_SUCCESS, 2%nat)
    (CL_SUCCESS, λ _, 3%N)
    (CL_SUCCESS, λ _, [x01; x02; x03])
    (λ _, CL_SUCCESS)
    (λ _, CL_SUCCESS).

Definition env (build_status : Z) (writable : string → bool) : oclc.Env :=
  oclc.mkEnv (runtime build_status) table "_Map_base::at" (λ text, text)
    "usage: oclc [options] file..." (λ _, Some "__kernel void vecAdd() {}")
    writable.

(** [oclc -d device vecAdd.cl], with or without [--fsyntax-only]. *)
Definition options (device : nat) (fsyntax_only : bool) : oclc.Options :=
  oclc.mkOptions false false "default" "" "" 0 device fsyntax_only false
    ["vecAdd.cl"].

(** The [float] values 1 and 2. *)
Definition one : spec_float := S754_finite false 8388608 (-23).
Definition two : spec_float := S754_finite false 8388608 (-22).

(** The verifier's runtime: [SetKernelArg] rejects index [reject] with
    CL_INVALID_MEM_OBJECT, and the device writes [output] to the buffer. *)
Definition test_env (reject : Z) (output : nat → spec_float) : oclc_test.Env :=
  oclc_test.mkEnv
    (λ n, (CL_SUCCESS, take n platforms, length platforms))
    (λ _ _ n, (CL_SUCCESS, take n devices, length devices))
    (λ _, (CL_SUCCESS, 301%N))
    (λ _, (CL_SUCCESS, 302%N))
    (λ k, (CL_SUCCESS, N.of_nat (201 + k)))
    (λ _ _, CL_SUCCESS)
    (λ _ _, (CL_SUCCESS, 401%N))
    (λ _, (CL_SUCCESS, 501%N))
    (λ idx _, if (idx =? reject)%Z then (-38)%Z else CL_SUCCESS)
    CL_SUCCESS CL_SUCCESS CL_SUCCESS
    (λ _, (CL_SUCCESS, output))
    (λ _, CL_SUCCESS) (λ _, CL_SUCCESS) (λ _, CL_SUCCESS) (λ _, CL_SUCCESS)
    (λ _, CL_SUCCESS)
    (λ text, text)
    (λ _, Some [x7f; x45; x4c; x46]).

End sample.

(** ** Vocabulary for further properties of the two programs *)

(** [m] never executes a [return] of [main], nor [std::exit]. *)
Definition never_returns {A} (m : M A) : Prop :=
  ∀ w status w', m w ≠ (Returned status, w') ∧ m w ≠ (Exited status, w').

(** The invariant "nothing written to a file or to standard error, and only
    runtime calls in [allow]"; [before_build] is the instance [oclc.early]. *)
Definition only_calls (allow : cl_call * cl_int → Prop) (w : World) : Prop :=
  files w = [] ∧ cerr w = "" ∧ Forall allow (calls w).

(** An enumeration or information query: the calls of the listing mode. *)
Definition query (c : cl_call * cl_int) : Prop :=
  match c.1 with
  | clGetPlatformIDs _ | clGetDeviceIDs _ _ _
  | clGetPlatformInfo _ _ | clGetDeviceInfo _ _ => True
  | _ => False
  end.

(** The text on standard error after a failed check of [errCode] in the
    compiler: the formatted message when the table lists the status, the
    text of the lookup exception otherwise. *)
Definition check_text (E : oclc.Env) (errCode : Z) : string :=
  match oclc.kErrorMessageMap E !! errCode with
  | Some text =>
      oclc.throw_text E ("[OpenCL] [" +:+ to_string errCode +:+ "] " +:+ text)
  | None => oclc.at_what E
  end.

(** Nothing on either output stream. *)
Definition silent (w : World) : Prop := cout w = "" ∧ cerr w = "".

(** [m] prints nothing, however it ends, and never ends the program. *)
Definition quiet {A} (m : M A) : Prop :=
  triple silent m (λ _, silent) (λ _, silent) (λ _ _, False).



(** Lines 214-218 of the compiler alone: the platforms are enumerated, the
    device type looked up, the information shown, and [main] returns. *)
Definition listing (E : oclc.Env) (device_type : string) : M unit :=
  platformIds ← oclc.getPlatformIds E oclc.kNDefaultPlatformEntry;
  deviceType ← oclc.map_at E oclc.kDeviceTypeMap device_type;
  oclc.showInfo E platformIds deviceType;;
  return_ EXIT_SUCCESS.

(** A compiler run gets as far as the build request: no help, no listing, a
    known device type [ty], enumerations answering [platformIds] and
    [deviceIds] with success, a context, readable sources [srcs] and a
    program object. *)
Definition reaches_build (E : oclc.Env) (op : oclc.Options) (ty : Z)
    (platformIds deviceIds : list handle) (srcs : list string) : Prop :=
  oclc.opt_help op = false ∧ oclc.opt_list op = false ∧
  oclc.opt_arguments op ≠ [] ∧
  oclc.kDeviceTypeMap !! oclc.opt_device_type op = Some ty ∧
  (∃ got n, oclc.rt_GetPlatformIDs (oclc.rt E) oclc.kNDefaultPlatformEntry
            = (CL_SUCCESS, got, n) ∧
            platformIds = resize n null
              (oclc.store_front got (replicate oclc.kNDefaultPlatformEntry null))) ∧
  (∃ got n, oclc.rt_GetDeviceIDs (oclc.rt E) (platformIds !! oclc.opt_platform op) ty
              oclc.kNDefaultDeviceEntry = (CL_SUCCESS, got, n) ∧
            deviceIds = resize n null
              (oclc.store_front got (replicate oclc.kNDefaultDeviceEntry null))) ∧
  (oclc.rt_CreateContext (oclc.rt E)
     (ptr_read deviceIds (oclc.opt_device op) (length deviceIds))).1 = CL_SUCCESS ∧
  Forall2 (λ f text, oclc.fs_read E f = Some text) (oclc.opt_arguments op) srcs ∧
  (oclc.rt_CreateProgramWithSource (oclc.rt E) srcs).1 = CL_SUCCESS.

(** The runtime calls of such a run up to the build request. *)
Definition calls_to_build (op : oclc.Options) (ty : Z)
    (platformIds deviceIds : list handle) (srcs : list string)
    : list (cl_call * cl_int) :=
  [(clGetPlatformIDs oclc.kNDefaultPlatformEntry, CL_SUCCESS);
   (clGetDeviceIDs (platformIds !! oclc.opt_platform op) ty
      oclc.kNDefaultDeviceEntry, CL_SUCCESS);
   (clCreateContext (ptr_read deviceIds (oclc.opt_device op) (length deviceIds)),
    CL_SUCCESS);
   (clCreateProgramWithSource srcs, CL_SUCCESS)].

(** The releases of such a run when its [try] block is left, by the
    deleters of [program] and then of [context]; a handle that is null is
    not released. *)
Definition releases (E : oclc.Env) (op : oclc.Options) (deviceIds : list handle)
    (srcs : list string) : list (cl_call * cl_int) :=
  let context :=
    (oclc.rt_CreateContext (oclc.rt E)
       (ptr_read deviceIds (oclc.opt_device op) (length deviceIds))).2 in
  let program := (oclc.rt_CreateProgramWithSource (oclc.rt E) srcs).2 in
  (destroy program clReleaseProgram (oclc.rt_ReleaseProgram (oclc.rt E)) ++
  destroy context clReleaseContext (oclc.rt_ReleaseContext (oclc.rt E)))%list.

(** * Properties *)

(** ** Strings *)

Lemma app_cons_s (c : ascii) (s t : string) : String c s +:+ t = String c (s +:+ t).
Proof. reflexivity. Qed.

Lemma app_nil_r_s (s : string) : s +:+ "" = s.
Proof. induction s as [|c s IH]; [done|]. by rewrite app_cons_s, IH. Qed.

Lemma app_assoc_s (s1 s2 s3 : string) : (s1 +:+ s2) +:+ s3 = s1 +:+ s2 +:+ s3.
Proof. induction s1 as [|c s1 IH]; [done|]. by rewrite !app_cons_s, IH. Qed.

Lemma length_app_s (s1 s2 : string) :
  String.length (s1 +:+ s2) = (String.length s1 + String.length s2)%nat.
Proof. induction s1 as [|c s1 IH]; [done|]. rewrite app_cons_s; simpl; lia. Qed.

Lemma substring_all (s : string) : substring 0 (String.length s) s = s.
Proof. induction s as [|c s IH]; simpl; [done | by rewrite IH]. Qed.

Lemma substring_prefix (s1 s2 : string) :
  substring 0 (String.length s1) (s1 +:+ s2) = s1.
Proof.
  induction s1 as [|c s1 IH].
  - by destruct s2.
  - rewrite app_cons_s; simpl. by rewrite IH.
Qed.

Lemma find_last_of_from_absent (c : ascii) (s : string) (i last : N) :
  occurs c s = false →
  find_last_of_from (String c "") s i last = last.
Proof.
  revert i last. induction s as [|d s IH]; intros i last Hs; simpl in *; [done|].
  destruct (Ascii.eqb d c); [done|]. by apply IH.
Qed.

Lemma find_last_of_from_last (c : ascii) (pre suf : string) (i last : N) :
  occurs c suf = false →
  find_last_of_from (String c "") (pre +:+ String c suf) i last
  = (i + size pre)%N.
Proof.
  revert i last. induction pre as [|d pre IH]; intros i last Hs.
  - change ("" +:+ String c suf) with (String c suf); simpl.
    rewrite Ascii.eqb_refl, find_last_of_from_absent by done.
    unfold size; simpl; lia.
  - rewrite app_cons_s; simpl. rewrite IH by done. unfold size; simpl; lia.
Qed.

(** ** [removeSuffix] and the default artifact name *)

Lemma removeSuffix_dotless (f : string) :
  (size f ≤ npos)%N → occurs "." f = false → oclc.removeSuffix f = f.
Proof.
  intros Hlen Hdot. unfold oclc.removeSuffix, find_last_of, substr.
  rewrite find_last_of_from_absent by done.
  replace (N.to_nat (N.min npos (size f - 0))) with (String.length f)
    by (unfold size in *; lia).
  apply substring_all.
Qed.

Lemma removeSuffix_last_dot (pre suf : string) :
  occurs "." suf = false → oclc.removeSuffix (pre +:+ "." +:+ suf) = pre.
Proof.
  intros Hdot. unfold oclc.removeSuffix, find_last_of, substr.
  change ("." +:+ suf) with (String "." suf).
  rewrite find_last_of_from_last by done.
  replace (N.to_nat (N.min _ _)) with (String.length pre);
    [apply substring_prefix|].
  unfold size. rewrite length_app_s. simpl. lia.
Qed.

(** C10. For a file name [f] (shorter than [npos], as every [std::string]
    is): if [f] contains no ['.'], [removeSuffix] returns it unchanged and the
    default artifact name is [f] followed by [".bin"] (and, with several
    devices, by the device suffix every name gets); if [f] contains dots,
    [removeSuffix] removes exactly the part from the last ['.'] to the end. *)
Theorem removeSuffix_default_basename (f : string) (Hlen : (size f < npos)%N) :
  (occurs "." f = false →
     oclc.removeSuffix f = f ∧
     ∀ nDevice i,
       oclc.artifact_filename "" (oclc.removeSuffix f) nDevice i
       = if (1 <? nDevice)%nat
         then (f +:+ ".bin") +:+ "." +:+ to_string_size i
         else f +:+ ".bin") ∧
  (∀ pre suf, f = pre +:+ "." +:+ suf → occurs "." suf = false →
     oclc.removeSuffix f = pre).
Proof.
  split.
  - intros Hdot. rewrite removeSuffix_dotless by (done || lia). done.
  - intros pre suf -> Hsuf. by apply removeSuffix_last_dot.
Qed.

Lemma removeSuffix_default_basename_witness :
  (oclc.removeSuffix "kernel" = "kernel" ∧
   oclc.artifact_filename "" (oclc.removeSuffix "kernel") 1 0 = "kernel.bin") ∧
  oclc.removeSuffix "vec.add.cl" = "vec.add".
Proof.
  split.
  - assert (Hlen : (size "kernel" < npos)%N) by (vm_compute; reflexivity).
    destruct (removeSuffix_default_basename "kernel" Hlen) as [H _].
    destruct (H eq_refl) as [H1 H2]. split; [exact H1 | exact (H2 1%nat 0%nat)].
  - assert (Hlen : (size "vec.add.cl" < npos)%N) by (vm_compute; reflexivity).
    destruct (removeSuffix_default_basename "vec.add.cl" Hlen) as [_ H].
    exact (H "vec.add" "cl" eq_refl eq_refl).
Defined.

(** ** [setKernelArgs] *)

Lemma add_calls_app (w : World) (l1 l2 : list (cl_call * cl_int)) :
  add_calls (add_calls w l1) l2 = add_calls w (l1 ++ l2).
Proof. unfold add_calls; simpl. by rewrite <- app_assoc. Qed.

Lemma to_cl_uint_zero (z : Z) : is_cl_int z → to_cl_uint z = 0%Z → z = 0%Z.
Proof.
  unfold is_cl_int, to_cl_uint. intros Hz H.
  apply Z.mod_divide in H; [|lia]. destruct H as [q ->]. lia.
Qed.

Lemma to_cl_int_uint (z : Z) : is_cl_int z → to_cl_int (to_cl_uint z) = z.
Proof.
  unfold is_cl_int, to_cl_int, to_cl_uint. intros Hz.
  rewrite Zplus_mod_idemp_l. rewrite Z.mod_small; lia.
Qed.

Section setKernelArgs.
Context (E : oclc_test.Env).
Hypothesis status_range : ∀ idx a, is_cl_int (oclc_test.rt_SetKernelArg E idx a).

Lemma setKernelArgsImpl_spec (rest : list karg) :
  ∀ (idx : Z) (first : karg) (w : World),
  let all := oclc_test.bindings E idx (first :: rest) in
  ∃ (k : nat) (ret : Z) (b : cl_call * cl_int),
    oclc_test.setKernelArgsImpl E idx first rest w
      = (Normal ret, add_calls w (take (S k) all)) ∧
    all !! k = Some b ∧
    Forall oclc_test.accepted (take k all) ∧
    ret = to_cl_uint b.2 ∧
    ((S k < length all)%nat → ¬ oclc_test.accepted b) ∧
    (ret = CL_SUCCESS ↔ Forall oclc_test.accepted all).
Proof.
  induction rest as [|next rest IH]; intros idx first w all.
  - exists 0%nat, (to_cl_uint (oclc_test.rt_SetKernelArg E idx first)),
      (clSetKernelArg idx first, oclc_test.rt_SetKernelArg E idx first).
    repeat split; simpl; auto; try lia.
    + intros H. constructor; [|constructor].
      apply to_cl_uint_zero in H; [exact H | apply status_range].
    + intros H. apply Forall_cons in H as [H _].
      unfold oclc_test.accepted in H; simpl in H. by rewrite H.
  - set (s := oclc_test.rt_SetKernelArg E idx first).
    change (oclc_test.setKernelArgsImpl E idx first (next :: rest) w)
      with ((if (to_cl_uint s =? to_cl_uint CL_SUCCESS)%Z
             then oclc_test.setKernelArgsImpl E (idx + 1) next rest
             else mret (to_cl_uint s))
              (add_calls w [(clSetKernelArg idx first, s)])).
    change (to_cl_uint CL_SUCCESS) with 0%Z.
    destruct (Z.eqb_spec (to_cl_uint s) 0) as [Hs|Hs].
    + apply to_cl_uint_zero in Hs; [|apply status_range].
      destruct (IH (idx + 1)%Z next (add_calls w [(clSetKernelArg idx first, s)]))
        as (k & ret & b & Hrun & Hk & Hpre & Hret & Hstop & Hiff).
      exists (S k), ret, b. rewrite Hrun, add_calls_app.
      repeat split; auto.
      * constructor; [exact Hs | exact Hpre].
      * intros Hlt. apply Hstop. simpl in Hlt |- *. lia.
      * intros H. constructor; [exact Hs | by apply Hiff].
      * intros H. apply Hiff. by apply Forall_cons in H as [_ H].
    + exists 0%nat, (to_cl_uint s), (clSetKernelArg idx first, s).
      assert (Hrej : ¬ oclc_test.accepted (clSetKernelArg idx first, s)).
      { unfold oclc_test.accepted; simpl. intros Hacc. by rewrite Hacc in Hs. }
      repeat split; simpl; auto.
      * intros H. by destruct Hs.
      * intros H. by apply Forall_cons in H as [H _].
Qed.

Lemma bindings_status_range (args : list karg) :
  ∀ (idx : Z) (b : cl_call * Z), b ∈ oclc_test.bindings E idx args → is_cl_int b.2.
Proof.
  induction args as [|a args IH]; intros idx b Hin; simpl in Hin.
  - by apply elem_of_nil in Hin.
  - apply elem_of_cons in Hin as [->|Hin]; [apply status_range | by eapply IH].
Qed.

End setKernelArgs.

(** ** Rules for triples *)

Lemma triple_bind {A B} (P : World → Prop) (m : M A) (f : A → M B)
    (Q' : A → World → Prop) Q X R :
  triple P m Q' X R → (∀ a, triple (Q' a) (f a) Q X R) →
  triple P (m ≫= f) Q X R.
Proof.
  intros Hm Hf w Hw. specialize (Hm w Hw).
  unfold mbind, M_bind. destruct (m w) as [[a|e|s|s] w']; [|done..].
  by apply Hf.
Qed.

Lemma triple_weaken {A} (P : World → Prop) (m : M A)
    (Q Q' : A → World → Prop) (X X' : exception → World → Prop)
    (R R' : Z → World → Prop) :
  triple P m Q X R →
  (∀ a w, Q a w → Q' a w) → (∀ e w, X e w → X' e w) → (∀ s w, R s w → R' s w) →
  triple P m Q' X' R'.
Proof.
  intros Hm HQ HX HR w Hw. specialize (Hm w Hw).
  destruct (m w) as [[a|e|s|s] w']; auto.
Qed.

(** A block with local objects: what holds when the block is left must
    still hold after the calls of their destructors; [std::exit] skips
    them. *)
Lemma triple_scope {A} (P : World → Prop) (released : list (cl_call * cl_int))
    (block : M A) (Q Q' : A → World → Prop) (X X' : exception → World → Prop)
    (R R' : Z → World → Prop) :
  triple P block Q' X' R' →
  (∀ a w, Q' a w → Q a (add_calls w released)) →
  (∀ e w, X' e w → X e (add_calls w released)) →
  (∀ s w, R' s w → R s w ∧ R s (add_calls w released)) →
  triple P (scope released block) Q X R.
Proof.
  intros Hm HQ HX HR w Hw. specialize (Hm w Hw). unfold scope.
  destruct (block w) as [[a|e|s|s] w']; cbn [leave]; auto; by apply HR.
Qed.

Lemma preserves_scope {A} (I : World → Prop) (released : list (cl_call * cl_int))
    (block : M A) :
  (∀ w, I w → I (add_calls w released)) →
  preserves I block → preserves I (scope released block).
Proof. intros HI Hm. eapply triple_scope; [exact Hm|..]; auto. Qed.

(** A step that keeps the invariant, in front of a computation specified
    from that invariant. *)
Lemma triple_step {A B} (I : World → Prop) (m : M A) (f : A → M B) Q
    (X : exception → World → Prop) (R : Z → World → Prop) :
  preserves I m →
  (∀ e w, I w → X e w) → (∀ s w, I w → R s w) →
  (∀ a, triple I (f a) Q X R) →
  triple I (m ≫= f) Q X R.
Proof.
  intros Hm HX HR Hf. apply triple_bind with (Q' := λ _, I); [|done].
  eapply triple_weaken; [exact Hm|..]; auto.
Qed.

Lemma preserves_ret {A} (I : World → Prop) (a : A) : preserves I (mret a).
Proof. by intros w Hw. Qed.

Lemma preserves_throw {A} (I : World → Prop) (e : exception) :
  preserves I (@throw A e).
Proof. by intros w Hw. Qed.

Lemma preserves_return {A} (I : World → Prop) (s : Z) :
  preserves I (@return_ A s).
Proof. by intros w Hw. Qed.

Lemma preserves_bind {A B} (I : World → Prop) (m : M A) (f : A → M B) :
  preserves I m → (∀ a, preserves I (f a)) → preserves I (m ≫= f).
Proof. intros Hm Hf. by apply triple_bind with (Q' := λ _, I). Qed.

Lemma preserves_for_range (I : World → Prop) (body : nat → M unit) (count : nat) :
  (∀ i, preserves I (body i)) → ∀ from, preserves I (for_range from count body).
Proof.
  intros Hbody. induction count as [|count IH]; intros from; simpl.
  - apply preserves_ret.
  - apply preserves_bind; [apply Hbody | intros _; apply IH].
Qed.

(** The steps of the compiler before the build request keep [before_build]. *)
Lemma before_build_cout (s : string) : preserves before_build (cout_put s).
Proof. by intros w Hw. Qed.

Lemma before_build_call (c : cl_call) (status : Z) :
  oclc.early (c, status) → preserves before_build (call_log c status).
Proof.
  intros Hc w (Hf & He & Hcalls). repeat split; simpl; auto.
  apply Forall_app; split; [done | by constructor].
Qed.

Section before_build.
Context (E : oclc.Env).

Lemma preserves_map_at {K V} `{Countable K} (I : World → Prop)
    (m : gmap K V) (key : K) :
  preserves I (oclc.map_at E m key).
Proof. intros w Hw. unfold oclc.map_at. by destruct (m !! key). Qed.

Lemma preserves_check_error (I : World → Prop) (errCode : Z) :
  preserves I (oclc.OCLC_CHECK_ERROR E errCode).
Proof.
  unfold oclc.OCLC_CHECK_ERROR, oclc.KOTLIB_THROW_IF.
  destruct (negb _); [|apply preserves_ret].
  apply preserves_bind; [|intros; apply preserves_throw].
  apply preserves_bind; [apply preserves_map_at | intros; apply preserves_ret].
Qed.

Lemma preserves_check_error_with_msg (I : World → Prop) (errCode : Z) (msg : string) :
  preserves I (oclc.OCLC_CHECK_ERROR_WITH_MSG E errCode msg).
Proof.
  unfold oclc.OCLC_CHECK_ERROR_WITH_MSG, oclc.KOTLIB_THROW_IF.
  destruct (negb _); [|apply preserves_ret].
  apply preserves_bind; [|intros; apply preserves_throw].
  apply preserves_bind; [apply preserves_map_at | intros; apply preserves_ret].
Qed.

Lemma preserves_readSource (I : World → Prop) (filenames : list string) :
  preserves I (oclc.readSource E filenames).
Proof.
  induction filenames as [|f rest IH]; simpl; [apply preserves_ret|].
  apply preserves_bind.
  - unfold oclc.readSource1. destruct (oclc.fs_read E f);
      [apply preserves_ret | apply preserves_throw].
  - intros src. apply preserves_bind; [exact IH | intros; apply preserves_ret].
Qed.

End before_build.

Create HintDb pres discriminated.

#[local] Hint Resolve preserves_ret preserves_throw preserves_return
  preserves_map_at preserves_check_error preserves_check_error_with_msg
  preserves_readSource before_build_cout : pres.

(** Walks through a sequence of steps that each keep [before_build]. *)
Ltac pres_steps :=
  repeat first
    [ solve [auto with pres]
    | apply before_build_call; exact I
    | apply preserves_for_range; intros
    | apply preserves_bind; [|intros] ].

Section before_build_steps.
Context (E : oclc.Env).

Lemma before_build_getPlatformIds (n : nat) :
  preserves before_build (oclc.getPlatformIds E n).
Proof.
  unfold oclc.getPlatformIds.
  destruct (oclc.rt_GetPlatformIDs (oclc.rt E) n) as [[errCode got] nPlatform].
  pres_steps.
Qed.

Lemma before_build_getDeviceIds (platformId : option handle) (n : nat) (ty : Z) :
  preserves before_build (oclc.getDeviceIds E platformId n ty).
Proof.
  unfold oclc.getDeviceIds.
  destruct (oclc.rt_GetDeviceIDs (oclc.rt E) platformId ty n) as [[errCode got] nDevice].
  pres_steps.
Qed.

Lemma before_build_showPlatformInfo (platformId : option handle) :
  preserves before_build (oclc.showPlatformInfo E platformId).
Proof.
  unfold oclc.showPlatformInfo.
  destruct (oclc.rt_GetPlatformInfo (oclc.rt E) platformId CL_PLATFORM_NAME)
    as [c1 s1].
  destruct (oclc.rt_GetPlatformInfo (oclc.rt E) platformId CL_PLATFORM_VERSION)
    as [c2 s2].
  pres_steps.
Qed.

Lemma before_build_showDeviceInfo (deviceId : option handle) :
  preserves before_build (oclc.showDeviceInfo E deviceId).
Proof.
  unfold oclc.showDeviceInfo.
  destruct (oclc.rt_GetDeviceInfo (oclc.rt E) deviceId CL_DEVICE_NAME) as [c1 s1].
  destruct (oclc.rt_GetDeviceInfo (oclc.rt E) deviceId CL_DEVICE_VERSION) as [c2 s2].
  pres_steps.
Qed.

Lemma before_build_showInfo (platformIds : list handle) (ty : Z) :
  preserves before_build (oclc.showInfo E platformIds ty).
Proof.
  unfold oclc.showInfo.
  pres_steps;
    auto using before_build_showPlatformInfo, before_build_getDeviceIds,
      before_build_showDeviceInfo.
Qed.

End before_build_steps.

#[local] Hint Resolve before_build_getPlatformIds before_build_getDeviceIds
  before_build_showInfo : pres.

(** ** The error check and the extraction stage *)

Section stages.
Context (E : oclc.Env).

(** The check lets a success through and throws on anything else; it never
    touches the world. *)
Lemma check_error_cases (errCode : Z) (w : World) :
  (errCode = CL_SUCCESS ∧ oclc.OCLC_CHECK_ERROR E errCode w = (Normal tt, w)) ∨
  (errCode ≠ CL_SUCCESS ∧ ∃ e, oclc.OCLC_CHECK_ERROR E errCode w = (Thrown e, w)).
Proof.
  unfold oclc.OCLC_CHECK_ERROR, oclc.KOTLIB_THROW_IF.
  destruct (Z.eqb_spec errCode CL_SUCCESS) as [->|Hne]; simpl; [by left|].
  right. split; [done|].
  unfold mbind, M_bind, oclc.map_at.
  destruct (oclc.kErrorMessageMap E !! errCode); simpl; eauto.
Qed.

Lemma check_error_with_msg_throws (errCode : Z) (msg : string) (w : World) :
  errCode ≠ CL_SUCCESS →
  ∃ e, oclc.OCLC_CHECK_ERROR_WITH_MSG E errCode msg w = (Thrown e, w).
Proof.
  intros Hne. unfold oclc.OCLC_CHECK_ERROR_WITH_MSG, oclc.KOTLIB_THROW_IF.
  destruct (Z.eqb_spec errCode CL_SUCCESS) as [->|_]; [done|]; simpl.
  unfold mbind, M_bind, oclc.map_at.
  destruct (oclc.kErrorMessageMap E !! errCode); simpl; eauto.
Qed.

Context (op : oclc.Options).

(** The writing loop, from device [from] on: it always runs to its end; the
    devices whose file opens get their file, the others a line on standard
    error. *)
Lemma write_loop (count : nat) : ∀ (from : nat) (w : World),
  for_range from count
    (oclc.write_binary E op
       (oclc.removeSuffix (default "" (oclc.opt_arguments op !! 0%nat)))
       (oclc.nDevice E) (oclc.binSize E) (oclc.rt_Binaries (oclc.rt E)).2) w
  = (Normal tt,
     mkWorld (cout w)
       (cerr w +:+
        foldr String.append ""
          (map (λ i, "Failed to open: " +:+ oclc.filename_of E op i +:+ endl)
             (List.filter
                (λ i, oclc.has_binary E i
                      && negb (oclc.fs_writable E (oclc.filename_of E op i)))
                (seq from count))))
       (files w ++
        map (λ i, (oclc.filename_of E op i, oclc.binary E i))
          (List.filter
             (λ i, oclc.has_binary E i
                   && oclc.fs_writable E (oclc.filename_of E op i))
             (seq from count)))
       (calls w)).
Proof.
  unfold oclc.has_binary.
  induction count as [|count IH]; intros from w.
  - simpl. rewrite app_nil_r_s, app_nil_r. by destruct w.
  - change (for_range from (S count) ?body w)
      with ((body from ;; for_range (S from) count body) w).
    change (seq from (S count)) with (from :: seq (S from) count).
    unfold mbind, M_bind.
    unfold oclc.write_binary at 1.
    fold (oclc.filename_of E op from). fold (oclc.binary E from).
    cbn [List.filter].
    destruct (oclc.binSize E from =? 0)%N; cbn [negb andb].
    + cbn [mret M_ret]. by rewrite IH.
    + destruct (oclc.fs_writable E (oclc.filename_of E op from));
        cbn [negb map foldr file_put cerr_put]; rewrite IH; simpl.
      * by rewrite <- app_assoc.
      * by rewrite !app_assoc_s.
Qed.

End stages.

(** ** The shape of a run of [oclc.main] *)

Lemma early_not_later (c : cl_call * Z) :
  oclc.early c → ¬ oclc.extraction c ∧ ¬ oclc.build_success c ∧ c ≠ oclc.fetched.
Proof.
  destruct c as [[] status]; unfold oclc.early, oclc.extraction,
    oclc.build_success, oclc.fetched; simpl; intros H; repeat split; try tauto;
    discriminate.
Qed.

Lemma extraction_not_build (c : cl_call * Z) :
  oclc.extraction c → ¬ oclc.build_success c.
Proof.
  destruct c as [[] status]; unfold oclc.extraction, oclc.build_success; simpl; tauto.
Qed.

Section main_shape.
Context (E : oclc.Env) (op : oclc.Options).

Lemma before_build_thrown (w : World) :
  before_build w → oclc.ends_thrown op w.
Proof.
  intros (Hf & He & Hc). repeat split; auto.
  - intros Hin. rewrite Forall_forall in Hc.
    by destruct (early_not_later _ (Hc _ Hin)) as (_ & _ & Hne).
  - intros _. eapply Forall_impl; [exact Hc|]. intros c Hearly.
    destruct (early_not_later _ Hearly) as (? & ? & _); by split.
Qed.

Lemma before_build_returned (n : nat) (status : Z) (w : World) :
  before_build w → oclc.ends_returned_within n status w.
Proof.
  intros (Hf & He & Hc). rewrite Forall_forall in Hc. repeat split; auto.
  - intros Hin. by destruct (early_not_later _ (Hc _ Hin)) as (_ & _ & Hne).
  - apply Forall_forall. intros c Hin.
    by destruct (early_not_later _ (Hc _ Hin)) as (? & _ & _).
  - by destruct (early_not_later _ (Hc _ H)) as (_ & ? & _).
  - by destruct (early_not_later _ (Hc _ H)) as (_ & ? & _).
Qed.

(** The extraction stage either throws after a failed query, before the
    writing loop, or runs the loop to its end. *)
Lemma extract_binaries_cases (w : World) :
  (∃ e ext, oclc.extract_binaries E op w = (Thrown e, add_calls w ext) ∧
            Forall oclc.extraction ext ∧ oclc.fetched ∉ ext) ∨
  oclc.extract_binaries E op w
  = (Normal tt,
     mkWorld (cout w) (cerr w +:+ oclc.failure_log E op)
       (files w ++ oclc.written_files E op)
       (calls w ++ [(clGetProgramInfo CL_PROGRAM_NUM_DEVICES, CL_SUCCESS);
                    (clGetProgramInfo CL_PROGRAM_BINARY_SIZES, CL_SUCCESS);
                    oclc.fetched])).
Proof.
  unfold oclc.extract_binaries, oclc.failure_log, oclc.written_files,
    oclc.persisted, oclc.failed.
  pose proof (write_loop E op (oclc.nDevice E) 0) as Hloop.
  unfold oclc.nDevice, oclc.binSize in *.
  destruct (oclc.rt_NumDevices (oclc.rt E)) as [c1 n].
  destruct (oclc.rt_BinarySizes (oclc.rt E)) as [c2 sizes] eqn:Hsizes.
  destruct (oclc.rt_Binaries (oclc.rt E)) as [c3 bins] eqn:Hbins.
  simpl in Hloop. unfold mbind, M_bind. cbn [call_log].
  match goal with |- context [oclc.OCLC_CHECK_ERROR E c1 ?w1] =>
    destruct (check_error_cases E c1 w1) as [[-> ->] | [Hne [e ->]]] end.
  2:{ left. exists e, [(clGetProgramInfo CL_PROGRAM_NUM_DEVICES, c1)].
      repeat split; [by repeat constructor|].
      intros Hin%list_elem_of_singleton. injection Hin as _ Hc. by destruct Hne. }
  cbn [call_log add_calls cout cerr files calls].
  match goal with |- context [oclc.OCLC_CHECK_ERROR E c2 ?w2] =>
    destruct (check_error_cases E c2 w2) as [[-> ->] | [Hne [e ->]]] end.
  2:{ left. exists e, [(clGetProgramInfo CL_PROGRAM_NUM_DEVICES, CL_SUCCESS);
                       (clGetProgramInfo CL_PROGRAM_BINARY_SIZES, c2)].
      unfold add_calls; simpl. rewrite <- app_assoc. repeat split.
      - by repeat constructor.
      - intros Hin. apply elem_of_cons in Hin as [Hin|Hin]; [discriminate|].
        apply list_elem_of_singleton in Hin. discriminate. }
  cbn [call_log add_calls cout cerr files calls].
  match goal with |- context [oclc.OCLC_CHECK_ERROR E c3 ?w3] =>
    destruct (check_error_cases E c3 w3) as [[-> ->] | [Hne [e ->]]] end.
  2:{ left. exists e, [(clGetProgramInfo CL_PROGRAM_NUM_DEVICES, CL_SUCCESS);
                       (clGetProgramInfo CL_PROGRAM_BINARY_SIZES, CL_SUCCESS);
                       (clGetProgramInfo CL_PROGRAM_BINARIES, c3)].
      unfold add_calls; simpl. rewrite <- !app_assoc. repeat split.
      - by repeat constructor.
      - intros Hin. apply elem_of_cons in Hin as [Hin|Hin]; [discriminate|].
        apply elem_of_cons in Hin as [Hin|Hin]; [discriminate|].
        apply list_elem_of_singleton in Hin. injection Hin as Hc. by destruct Hne. }
  right. rewrite Hloop. simpl. by rewrite <- !app_assoc.
Qed.

Lemma add_calls_nil (w : World) : add_calls w [] = w.
Proof. unfold add_calls. rewrite app_nil_r. by destruct w. Qed.

(** The [switch] on the build status lets a success through and throws on
    anything else, after at most a query for the build log. *)
Lemma check_build_cases (errCode : Z) (device : option handle) (w : World) :
  (errCode = CL_SUCCESS ∧ oclc.check_build E errCode device w = (Normal tt, w)) ∨
  (errCode ≠ CL_SUCCESS ∧
   ∃ e extra, oclc.check_build E errCode device w = (Thrown e, add_calls w extra) ∧
              Forall oclc.early extra).
Proof.
  unfold oclc.check_build.
  destruct (Z.eqb_spec errCode CL_SUCCESS) as [->|Hne]; [by left|].
  right. split; [done|].
  destruct (errCode =? CL_BUILD_PROGRAM_FAILURE)%Z.
  - destruct (oclc.rt_BuildLog (oclc.rt E) device) as [logStatus buildLog].
    unfold mbind, M_bind. cbn [call_log].
    match goal with |- context [oclc.OCLC_CHECK_ERROR_WITH_MSG E _ _ ?w1] =>
      destruct (check_error_with_msg_throws E errCode buildLog w1 Hne) as [e ->] end.
    exists e, [(clGetProgramBuildInfo device, logStatus)].
    split; [done|]. by repeat constructor.
  - assert (∃ e, oclc.OCLC_CHECK_ERROR E errCode w = (Thrown e, w)) as [e He].
    { by destruct (check_error_cases E errCode w) as [[? _]|[_ ?]]. }
    exists e, []. rewrite add_calls_nil.
    split; [|constructor]. by destruct (errCode =? CL_INVALID_BUILD_OPTIONS)%Z.
Qed.

(** From the build request to the end of the [try] block, before the
    releases. *)
Lemma after_build (deviceIds : list handle) :
  triple before_build (oclc.build_and_extract E op deviceIds)
    (λ _, oclc.ends_normally E op)
    (λ _, oclc.ends_thrown op)
    (oclc.ends_returned_within 0).
Proof.
  unfold oclc.build_and_extract. cbv zeta.
  set (devices := ptr_read deviceIds (oclc.opt_device op) (length deviceIds)).
  set (device := deviceIds !! oclc.opt_device op).
  set (errCode := oclc.rt_BuildProgram (oclc.rt E) devices (oclc.opt_option op)).
  intros w (Hf & He & Hc).
  assert (Hnot : ∀ c, c ∈ calls w →
            ¬ oclc.extraction c ∧ ¬ oclc.build_success c ∧ c ≠ oclc.fetched).
  { intros c Hin. rewrite Forall_forall in Hc. by apply early_not_later, Hc. }
  unfold mbind, M_bind. cbn [call_log].
  match goal with |- context [oclc.check_build E errCode device ?w1] =>
    destruct (check_build_cases errCode device w1)
      as [[Hok ->] | [Hne (e & extra & -> & Hextra)]] end.
  - (* the build succeeded *)
    destruct (oclc.opt_fsyntax_only op) eqn:Hsyn.
    + (* syntax only: return at once *)
      cbn. unfold oclc.ends_returned_within; cbn. repeat split; auto.
      * intros Hin. apply elem_of_app in Hin as [Hin|Hin].
        -- by destruct (Hnot _ Hin) as (_ & _ & ?).
        -- apply list_elem_of_singleton in Hin. discriminate.
      * apply Forall_app. split.
        -- apply Forall_forall. intros c Hin. by destruct (Hnot c Hin).
        -- repeat constructor. unfold oclc.extraction; simpl. tauto.
      * apply elem_of_app in H as [Hin|Hin].
        -- by destruct (Hnot _ Hin) as (_ & ? & _).
        -- apply list_elem_of_singleton in Hin. subst c.
           exists (calls w), []. by repeat split.
    + (* binaries wanted *)
      cbn [mret M_ret].
      match goal with |- context [oclc.extract_binaries E op ?w1] =>
        destruct (extract_binaries_cases w1)
          as [(e & ext & -> & Hext & Hnf) | ->] end.
      * unfold oclc.ends_thrown; cbn. repeat split; auto; [|by rewrite Hsyn].
        intros Hin. apply elem_of_app in Hin as [Hin|Hin]; [|done].
        apply elem_of_app in Hin as [Hin|Hin].
        -- by destruct (Hnot _ Hin) as (_ & _ & ?).
        -- apply list_elem_of_singleton in Hin. discriminate.
      * unfold oclc.ends_normally; cbn. rewrite Hf, He. repeat split; auto.
        rewrite !elem_of_app, !elem_of_cons. auto.
  - (* the build failed *)
    unfold oclc.ends_thrown; cbn. repeat split; auto.
    + intros Hin. apply elem_of_app in Hin as [Hin|Hin].
      * apply elem_of_app in Hin as [Hin|Hin].
        -- by destruct (Hnot _ Hin) as (_ & _ & ?).
        -- apply list_elem_of_singleton in Hin. discriminate.
      * rewrite Forall_forall in Hextra.
        by destruct (early_not_later _ (Hextra _ Hin)) as (_ & _ & ?).
    + intros _. rewrite !Forall_app. repeat split.
      * apply Forall_forall. intros c Hin. by destruct (Hnot c Hin) as (? & ? & _).
      * repeat constructor; unfold oclc.extraction, oclc.build_success; simpl; tauto.
      * eapply Forall_impl; [exact Hextra|]. intros c Hearly.
        by destruct (early_not_later _ Hearly) as (? & ? & _).
Qed.

(** The three ways the [try] block can end are kept by the releases. *)
Lemma release_not_later (c : cl_call * Z) :
  oclc.release c → ¬ oclc.extraction c ∧ ¬ oclc.build_success c ∧ c ≠ oclc.fetched.
Proof.
  destruct c as [[] status]; unfold oclc.release, oclc.extraction,
    oclc.build_success, oclc.fetched; simpl; intros H; repeat split; try tauto;
    discriminate.
Qed.

Lemma ends_normally_released (w : World) (l : list (cl_call * Z)) :
  oclc.ends_normally E op w → oclc.ends_normally E op (add_calls w l).
Proof.
  intros (Hs & Hf & He & Hc). repeat split; auto. simpl.
  apply elem_of_app. by left.
Qed.

Lemma ends_thrown_released (w : World) (l : list (cl_call * Z)) :
  Forall oclc.release l →
  oclc.ends_thrown op w → oclc.ends_thrown op (add_calls w l).
Proof.
  intros Hl (Hf & He & Hc & Hs). rewrite Forall_forall in Hl.
  repeat split; auto; simpl.
  - intros Hin. apply elem_of_app in Hin as [Hin|Hin]; [done|].
    by destruct (release_not_later _ (Hl _ Hin)) as (_ & _ & ?).
  - intros Hsyn. apply Forall_app. split; [by apply Hs|].
    apply Forall_forall. intros c Hin.
    by destruct (release_not_later _ (Hl _ Hin)) as (? & ? & _).
Qed.

Lemma ends_returned_released (n m : nat) (status : Z) (w : World)
    (l : list (cl_call * Z)) :
  Forall oclc.release l → (n + length l ≤ m)%nat →
  oclc.ends_returned_within n status w →
  oclc.ends_returned_within m status w ∧
  oclc.ends_returned_within m status (add_calls w l).
Proof.
  intros Hl Hm (Hf & Hc & He & Hb). pose proof Hl as Hl'.
  rewrite Forall_forall in Hl'. split; repeat split; auto; simpl.
  - by destruct (Hb c H H0).
  - destruct (Hb c H H0) as (_ & before & after & Heq & Hafter & Hlen).
    exists before, after. repeat split; auto. lia.
  - intros Hin. apply elem_of_app in Hin as [Hin|Hin]; [done|].
    by destruct (release_not_later _ (Hl' _ Hin)) as (_ & _ & ?).
  - apply Forall_app. split; [done|].
    apply Forall_forall. intros c Hin.
    by destruct (release_not_later _ (Hl' _ Hin)) as (? & _ & _).
  - apply elem_of_app in H as [Hin|Hin]; [by destruct (Hb c Hin H0)|].
    by destruct (release_not_later _ (Hl' _ Hin)) as (_ & ? & _).
  - apply elem_of_app in H as [Hin|Hin].
    + destruct (Hb c Hin H0) as (_ & before & after & Heq & Hafter & Hlen).
      exists before, (after ++ l)%list. rewrite Heq, <- app_assoc. simpl.
      repeat split; [by apply Forall_app | rewrite length_app; lia].
    + by destruct (release_not_later _ (Hl' _ Hin)) as (_ & ? & _).
Qed.

(** What the destructor of a [std::unique_ptr] of [main] calls. *)
Lemma destroy_length (p : handle) (release : handle → cl_call)
    (status : handle → Z) :
  (length (destroy p release status) ≤ 1)%nat.
Proof. unfold destroy. destruct (p =? null)%N; simpl; lia. Qed.

Lemma destroy_program (p : handle) (status : handle → Z) :
  Forall oclc.release (destroy p clReleaseProgram status).
Proof. unfold destroy. destruct (p =? null)%N; by repeat constructor. Qed.

Lemma destroy_context (p : handle) (status : handle → Z) :
  Forall oclc.release (destroy p clReleaseContext status).
Proof. unfold destroy. destruct (p =? null)%N; by repeat constructor. Qed.

Lemma before_build_released (w : World) (l : list (cl_call * Z)) :
  Forall oclc.release l → before_build w → before_build (add_calls w l).
Proof.
  intros Hl (Hf & He & Hc). repeat split; auto. simpl.
  apply Forall_app. split; [done|]. eapply Forall_impl; [exact Hl|].
  by intros [[] status].
Qed.

(** A [std::unique_ptr] of [main] around a block that ends in one of the
    three ways. *)
Lemma shape_unique_ptr (n : nat) (p : handle) (release : handle → cl_call)
    (status : handle → Z) (block : M unit) :
  Forall oclc.release (destroy p release status) →
  triple before_build block (λ _, oclc.ends_normally E op)
    (λ _, oclc.ends_thrown op) (oclc.ends_returned_within n) →
  triple before_build (unique_ptr p release status block)
    (λ _, oclc.ends_normally E op) (λ _, oclc.ends_thrown op)
    (oclc.ends_returned_within (S n)).
Proof.
  intros Hrel Hblock. unfold unique_ptr.
  eapply triple_scope; [exact Hblock|..].
  - intros a w. apply ends_normally_released.
  - intros e w. by apply ends_thrown_released.
  - intros s w. apply ends_returned_released; [done|].
    pose proof (destroy_length p release status). lia.
Qed.

(** The whole [try] block. *)
Lemma main_body_shape :
  triple before_build (oclc.main_body E op)
    (λ _, oclc.ends_normally E op)
    (λ _, oclc.ends_thrown op)
    (oclc.ends_returned).
Proof.
  pose proof before_build_thrown as HX.
  pose proof before_build_returned as HR.
  unfold oclc.main_body, oclc.ends_returned.
  apply triple_step; [|by auto..|intros _].
  { destruct (oclc.opt_help op); pres_steps. }
  apply triple_step; [apply before_build_getPlatformIds|by auto..|intros platformIds].
  apply triple_step; [|by auto..|intros _].
  { destruct (oclc.opt_list op); pres_steps. }
  apply triple_bind with (Q' := λ _, before_build).
  { intros w Hw. destruct (_ <? 1)%nat; [|done].
    specialize (HR 2%nat EXIT_FAILURE w Hw). by unfold mbind, M_bind; cbn. }
  intros _.
  apply triple_step; [apply preserves_map_at|by auto..|intros deviceType].
  apply triple_step; [apply before_build_getDeviceIds|by auto..|intros deviceIds].
  cbv zeta.
  destruct (oclc.rt_CreateContext _ _) as [errCode context].
  apply triple_step; [pres_steps|by auto..|intros _].
  apply shape_unique_ptr; [apply destroy_context|].
  apply triple_step; [pres_steps|by auto..|intros _].
  apply triple_step; [pres_steps|by auto..|intros kernelSources].
  destruct (oclc.rt_CreateProgramWithSource _ _) as [errCode' program].
  apply triple_step; [pres_steps|by auto..|intros _].
  apply shape_unique_ptr; [apply destroy_program|].
  apply triple_step; [pres_steps|by auto..|intros _].
  apply after_build.
Qed.

(** Every run of the compiler, read off the final world. *)
Lemma run_shape :
  let '(status, w) := oclc.run E op in
  (status = EXIT_SUCCESS ∧ oclc.ends_normally E op w) ∨
  (status = EXIT_FAILURE ∧ files w = [] ∧ (oclc.fetched ∉ calls w) ∧
   (oclc.opt_fsyntax_only op = true →
    Forall (λ c, ¬ oclc.extraction c ∧ ¬ oclc.build_success c) (calls w))) ∨
  oclc.ends_returned status w.
Proof.
  unfold oclc.run, oclc.main, try_main.
  assert (H0 : before_build world0) by (by repeat split).
  pose proof (main_body_shape world0 H0) as H.
  destruct (oclc.main_body E op world0) as [[[]|e|s|s] w]; cbn.
  - by left.
  - right; left. destruct H as (? & ? & ? & ?). by repeat split.
  - by right; right.
  - by right; right.
Qed.

End main_shape.

(** ** Statuses the message table does not know (C1) *)

(** C1, counterexample.  The build answers -9999, which the table does not
    list: the check throws the [std::out_of_range] of [unordered_map::at],
    and the run ends with the text of that exception on standard error;
    no "unknown runtime error -9999" is printed. *)
Lemma unknown_status_counterexample :
  let E := sample.env (-9999) (λ _, true) in
  (-9999)%Z ≠ CL_SUCCESS ∧
  oclc.kErrorMessageMap E !! (-9999)%Z = None ∧
  oclc.OCLC_CHECK_ERROR E (-9999) world0
    = (Thrown (out_of_range "_Map_base::at"), world0) ∧
  (oclc.run E (sample.options 0 false)).1 = EXIT_FAILURE ∧
  cerr (oclc.run E (sample.options 0 false)).2 = "_Map_base::at" +:+ endl ∧
  mentions (cerr (oclc.run E (sample.options 0 false)).2)
    ("unknown runtime error " +:+ to_string (-9999)) = false.
Proof. repeat split; try done; vm_compute; reflexivity. Qed.

(** C1, as the code has it.  For a status other than [CL_SUCCESS] that the
    table does not list, both checking macros end in the out-of-range lookup
    of [unordered_map::at]: they throw [std::out_of_range] and build no
    message of their own.  Wherever the [try] block of [main] reaches such a
    check, the handler catches the exception: the run ends with the text of
    that exception on standard error, nothing else changed, and exit status
    [EXIT_FAILURE]; where the check stands in the scope of local objects
    (the context, the program), the calls [released] of their destructors
    are the only other change. *)
Theorem unknown_status_out_of_range (E : oclc.Env) (errCode : Z)
    (Hne : errCode ≠ CL_SUCCESS)
    (Habsent : oclc.kErrorMessageMap E !! errCode = None) :
  (∀ w, oclc.OCLC_CHECK_ERROR E errCode w
        = (Thrown (out_of_range (oclc.at_what E)), w)) ∧
  (∀ msg w, oclc.OCLC_CHECK_ERROR_WITH_MSG E errCode msg w
            = (Thrown (out_of_range (oclc.at_what E)), w)) ∧
  (∀ {A} (before : M A) (after : A → M unit) (w w1 : World) (a : A),
     before w = (Normal a, w1) →
     try_main (x ← before; oclc.OCLC_CHECK_ERROR E errCode;; after x) w
     = (EXIT_FAILURE,
        mkWorld (cout w1) (cerr w1 +:+ oclc.at_what E +:+ endl)
          (files w1) (calls w1))) ∧
  (∀ {A} (before : M A) (after : A → M unit) (released : list (cl_call * Z))
     (w w1 : World) (a : A),
     before w = (Normal a, w1) →
     try_main (x ← before;
               scope released (oclc.OCLC_CHECK_ERROR E errCode;; after x)) w
     = (EXIT_FAILURE,
        mkWorld (cout w1) (cerr w1 +:+ oclc.at_what E +:+ endl)
          (files w1) (calls w1 ++ released))).
Proof.
  assert (Hcheck : ∀ w, oclc.OCLC_CHECK_ERROR E errCode w
                        = (Thrown (out_of_range (oclc.at_what E)), w)).
  { intros w. unfold oclc.OCLC_CHECK_ERROR, oclc.KOTLIB_THROW_IF.
    destruct (Z.eqb_spec errCode CL_SUCCESS) as [|_]; [done|]. simpl.
    unfold mbind, M_bind, oclc.map_at. by rewrite Habsent. }
  split; [exact Hcheck|]. split.
  - intros msg w. unfold oclc.OCLC_CHECK_ERROR_WITH_MSG, oclc.KOTLIB_THROW_IF.
    destruct (Z.eqb_spec errCode CL_SUCCESS) as [|_]; [done|]. simpl.
    unfold mbind, M_bind, oclc.map_at. by rewrite Habsent.
  - split.
    + intros A before after w w1 a Hbefore.
      unfold try_main, mbind, M_bind. by rewrite Hbefore, Hcheck.
    + intros A before after released w w1 a Hbefore.
      unfold try_main, scope, mbind, M_bind. by rewrite Hbefore, Hcheck.
Qed.

Lemma unknown_status_out_of_range_witness :
  oclc.OCLC_CHECK_ERROR (sample.env CL_SUCCESS (λ _, true)) (-30) world0
    = (Thrown (out_of_range "_Map_base::at"), world0).
Proof.
  apply (unknown_status_out_of_range (sample.env CL_SUCCESS (λ _, true)) (-30)).
  - discriminate.
  - vm_compute. reflexivity.
Defined.

(** ** The devices handed to the runtime (C2) *)

(** Reading as many handles as the vector holds stays inside the vector
    only from its first element. *)
Lemma ptr_read_all {A} (v : list A) : ptr_read v 0 (length v) = map Some v.
Proof.
  unfold ptr_read. apply list_eq. intros i.
  rewrite !list_lookup_fmap. destruct (decide (i < length v)%nat) as [Hi|Hi].
  - rewrite lookup_seq_lt by done. simpl.
    destruct (lookup_lt_is_Some_2 v i Hi) as [x Hx]. by rewrite Hx.
  - rewrite lookup_seq_ge by lia. rewrite lookup_ge_None_2 by lia. done.
Qed.

Lemma ptr_read_in_bounds {A} (v : list A) (di : nat) :
  (di < length v)%nat → in_bounds (ptr_read v di (length v)) ↔ di = 0%nat.
Proof.
  intros Hdi. split.
  - intros Hall. destruct di as [|di]; [done|]. exfalso.
    unfold in_bounds, ptr_read in Hall. rewrite Forall_forall in Hall.
    assert (Hin : v !! (S di + (length v - 1))%nat
                  ∈ map (λ k, v !! (S di + k)%nat) (seq 0 (length v))).
    { apply (list_elem_of_fmap_2 (λ k, v !! (S di + k)%nat)).
      apply elem_of_seq. lia. }
    specialize (Hall _ Hin). apply lookup_lt_is_Some in Hall. lia.
  - intros ->. rewrite ptr_read_all. unfold in_bounds.
    apply Forall_fmap, Forall_forall. intros x _. by exists x.
Qed.

(** C2, at the failing input [oclc -d 1 vecAdd.cl] on a platform with two
    devices.  The device index is below the device count, yet the context
    is created and the build requested on two handles read from
    [&deviceIds[1]]: the second one lies past the end of the vector.  The
    calls listed are all the runtime calls of the run, the releases of the
    program and of the context at the end of the [try] block included. *)
Theorem context_reads_past_the_end :
  let E := sample.env CL_SUCCESS (λ _, true) in
  let op := sample.options 1 false in
  let devices := ptr_read sample.devices 1 (length sample.devices) in
  (oclc.opt_device op < length sample.devices)%nat ∧
  devices = [Some 102%N; None] ∧
  ¬ in_bounds devices ∧
  calls (oclc.run E op).2
  = [(clGetPlatformIDs 16, CL_SUCCESS);
     (clGetDeviceIDs (Some 11%N) CL_DEVICE_TYPE_DEFAULT 16, CL_SUCCESS);
     (clCreateContext devices, CL_SUCCESS);
     (clCreateProgramWithSource ["__kernel void vecAdd() {}"], CL_SUCCESS);
     (clBuildProgram devices "", CL_SUCCESS);
     (clGetProgramInfo CL_PROGRAM_NUM_DEVICES, CL_SUCCESS);
     (clGetProgramInfo CL_PROGRAM_BINARY_SIZES, CL_SUCCESS);
     (clGetProgramInfo CL_PROGRAM_BINARIES, CL_SUCCESS);
     (clReleaseProgram 401%N, CL_SUCCESS);
     (clReleaseContext 301%N, CL_SUCCESS)].
Proof.
  cbv zeta. split; [simpl; lia|]. split; [reflexivity|]. split.
  - intros H. apply (ptr_read_in_bounds sample.devices 1) in H; [done|simpl; lia].
  - vm_compute. reflexivity.
Qed.

(** ** Files that cannot be written (C3) *)

(** C3, counterexample.  Two devices have a binary and neither file can be
    opened: both failures are logged, no file is written, and the run still
    ends with [EXIT_SUCCESS]. *)
Lemma all_writes_fail_counterexample :
  let E := sample.env CL_SUCCESS (λ _, false) in
  let op := sample.options 0 false in
  oclc.failed E op = [0; 1]%nat ∧
  files (oclc.run E op).2 = [] ∧
  cerr (oclc.run E op).2
    = "Failed to open: vecAdd.bin.0" +:+ endl +:+
      "Failed to open: vecAdd.bin.1" +:+ endl ∧
  (oclc.run E op).1 = EXIT_SUCCESS.
Proof. repeat split; vm_compute; reflexivity. Qed.

(** C3, as the code has it.  In a run that reaches the writing loop (the
    binaries were fetched), a file that cannot be opened is not fatal: the
    file of every device that has a binary and a writable name is written,
    every other device with a binary gets its line "Failed to open: ..." on
    standard error, these lines being all of standard error, and the run
    ends with [EXIT_SUCCESS] whether or not any file was written. *)
Theorem write_failure_is_not_fatal (E : oclc.Env) (op : oclc.Options)
    (Hreached : oclc.fetched ∈ calls (oclc.run E op).2) :
  (oclc.run E op).1 = EXIT_SUCCESS ∧
  files (oclc.run E op).2 = oclc.written_files E op ∧
  cerr (oclc.run E op).2 = oclc.failure_log E op ∧
  ∀ i, (i < oclc.nDevice E)%nat → oclc.has_binary E i = true →
    if oclc.fs_writable E (oclc.filename_of E op i)
    then (oclc.filename_of E op i, oclc.binary E i) ∈ files (oclc.run E op).2
    else i ∈ oclc.failed E op.
Proof.
  pose proof (run_shape E op) as H.
  destruct (oclc.run E op) as [status w]; simpl in *.
  destruct H as [[-> (_ & Hf & He & _)] | [(_ & _ & Hno & _) | (_ & Hno & _)]];
    [|done..].
  repeat split; auto.
  intros i Hi Hbin. rewrite Hf.
  destruct (oclc.fs_writable E (oclc.filename_of E op i)) eqn:Hw.
  - unfold oclc.written_files.
    apply (list_elem_of_fmap_2 (λ i, (oclc.filename_of E op i, oclc.binary E i))).
    apply list_elem_of_In, filter_In. split.
    + apply in_seq. lia.
    + by rewrite Hbin, Hw.
  - apply list_elem_of_In, filter_In. split.
    + apply in_seq. lia.
    + by rewrite Hbin, Hw.
Qed.

Lemma write_failure_is_not_fatal_witness :
  let E := sample.env CL_SUCCESS (λ name, String.eqb name "vecAdd.bin.1") in
  let op := sample.options 0 false in
  (oclc.run E op).1 = EXIT_SUCCESS ∧
  files (oclc.run E op).2 = oclc.written_files E op ∧
  cerr (oclc.run E op).2 = oclc.failure_log E op ∧
  ∀ i, (i < oclc.nDevice E)%nat → oclc.has_binary E i = true →
    if oclc.fs_writable E (oclc.filename_of E op i)
    then (oclc.filename_of E op i, oclc.binary E i) ∈ files (oclc.run E op).2
    else i ∈ oclc.failed E op.
Proof.
  apply (write_failure_is_not_fatal
           (sample.env CL_SUCCESS (λ name, String.eqb name "vecAdd.bin.1"))
           (sample.options 0 false)).
  vm_compute. do 7 apply list_elem_of_further. apply list_elem_of_here.
Defined.

(** ** Artifact names (C4) *)

(** C4, counterexample.  With two devices and no output name, the files are
    named [vecAdd.bin.0] and [vecAdd.bin.1]: the device index follows
    [.bin]; it does not stand before it. *)
Lemma index_follows_bin_counterexample :
  let E := sample.env CL_SUCCESS (λ _, true) in
  let op := sample.options 0 false in
  oclc.opt_output op = "" ∧
  oclc.nDevice E = 2%nat ∧
  map fst (files (oclc.run E op).2) = ["vecAdd.bin.0"; "vecAdd.bin.1"] ∧
  oclc.filename_of E op 0
    ≠ oclc.removeSuffix "vecAdd.cl" +:+ "." +:+ to_string_size 0 +:+ ".bin".
Proof. repeat split; try (vm_compute; reflexivity). vm_compute. discriminate. Qed.

Lemma filename_of_default (E : oclc.Env) (op : oclc.Options) (i : nat) :
  oclc.opt_output op = "" → (1 < oclc.nDevice E)%nat →
  oclc.filename_of E op i
  = oclc.removeSuffix (default "" (oclc.opt_arguments op !! 0%nat))
    +:+ ".bin." +:+ to_string_size i.
Proof.
  intros Hout Hn. unfold oclc.filename_of, oclc.artifact_filename.
  rewrite Hout. simpl String.eqb. cbv iota.
  apply Nat.ltb_lt in Hn. rewrite Hn. by rewrite app_assoc_s.
Qed.

Lemma filename_of_inj (E : oclc.Env) (op : oclc.Options) :
  (1 < oclc.nDevice E)%nat → Inj (=) (=) (oclc.filename_of E op).
Proof.
  intros Hn i j. unfold oclc.filename_of, oclc.artifact_filename.
  apply Nat.ltb_lt in Hn. rewrite Hn. intros Heq.
  apply String.app_inj in Heq. apply String.app_inj in Heq.
  by apply pretty_nat_inj in Heq.
Qed.

(** C4, as the code has it.  With more than one device reported for the
    built program and no output name, the files written are those of the
    devices in [persisted], each named [<basename>.bin.<i>] for its
    zero-based device index [i], where the basename is [removeSuffix] of the
    first source file name; the names are pairwise distinct. *)
Theorem artifact_names (E : oclc.Env) (op : oclc.Options)
    (Hout : oclc.opt_output op = "") (Hn : (1 < oclc.nDevice E)%nat) :
  let basename := oclc.removeSuffix (default "" (oclc.opt_arguments op !! 0%nat)) in
  (files (oclc.run E op).2 = [] ∨
   files (oclc.run E op).2
   = map (λ i, (basename +:+ ".bin." +:+ to_string_size i, oclc.binary E i))
       (oclc.persisted E op)) ∧
  (∀ i, i ∈ oclc.persisted E op → (i < oclc.nDevice E)%nat) ∧
  NoDup (map fst (files (oclc.run E op).2)).
Proof.
  intros basename.
  assert (Hfiles : files (oclc.run E op).2 = [] ∨
                   files (oclc.run E op).2 = oclc.written_files E op).
  { pose proof (run_shape E op) as H.
    destruct (oclc.run E op) as [status w]; simpl.
    destruct H as [[_ (_ & Hf & _)] | [(_ & Hf & _) | (Hf & _)]]; auto. }
  split; [|split].
  - destruct Hfiles as [Hf|Hf]; [by left|right]. rewrite Hf.
    unfold oclc.written_files. apply map_ext. intros i.
    by rewrite filename_of_default.
  - intros i Hi. apply list_elem_of_In, filter_In in Hi as [Hi _].
    apply in_seq in Hi. lia.
  - destruct Hfiles as [Hf|Hf]; rewrite Hf; [constructor|].
    unfold oclc.written_files. rewrite map_map. simpl.
    apply (NoDup_fmap_2 (oclc.filename_of E op) (Inj0 := filename_of_inj E op Hn)).
    apply NoDup_ListNoDup, List.NoDup_filter, NoDup_ListNoDup, NoDup_seq.
Qed.

Lemma artifact_names_witness :
  let E := sample.env CL_SUCCESS (λ _, true) in
  let op := sample.options 0 false in
  let basename := oclc.removeSuffix (default "" (oclc.opt_arguments op !! 0%nat)) in
  (files (oclc.run E op).2 = [] ∨
   files (oclc.run E op).2
   = map (λ i, (basename +:+ ".bin." +:+ to_string_size i, oclc.binary E i))
       (oclc.persisted E op)) ∧
  (∀ i, i ∈ oclc.persisted E op → (i < oclc.nDevice E)%nat) ∧
  NoDup (map fst (files (oclc.run E op).2)).
Proof.
  apply (artifact_names (sample.env CL_SUCCESS (λ _, true)) (sample.options 0 false)).
  - reflexivity.
  - vm_compute. lia.
Defined.

(** ** Syntax-only mode (C7) *)

(** C7.  In syntax-only mode no run writes a file or queries the built
    program, whatever the build answers; and if the build succeeded, the
    run ends with [EXIT_SUCCESS] and the build request is its last runtime
    call but for the releases of the program and of the context, which the
    deleters of the two [std::unique_ptr]s make when [main] returns: the
    exit is immediate. *)
Theorem syntax_only_writes_nothing (E : oclc.Env) (op : oclc.Options)
    (Hsyntax : oclc.opt_fsyntax_only op = true) :
  files (oclc.run E op).2 = [] ∧
  Forall (λ c, ¬ oclc.extraction c) (calls (oclc.run E op).2) ∧
  ∀ c, c ∈ calls (oclc.run E op).2 → oclc.build_success c →
       (oclc.run E op).1 = EXIT_SUCCESS ∧
       oclc.last_but_releases 2 (calls (oclc.run E op).2) c.
Proof.
  pose proof (run_shape E op) as H.
  destruct (oclc.run E op) as [status w]; simpl.
  destruct H as [[_ (Hno & _)] | [(_ & Hf & _ & Hc) | (Hf & _ & Hc & Hlast)]].
  - congruence.
  - specialize (Hc Hsyntax). rewrite Forall_forall in Hc. repeat split; auto.
    + apply Forall_forall. intros c Hin. by destruct (Hc c Hin).
    + by destruct (Hc c H).
    + by destruct (Hc c H).
  - repeat split; auto; by destruct (Hlast c H H0).
Qed.

Lemma syntax_only_writes_nothing_witness :
  let E := sample.env CL_SUCCESS (λ _, true) in
  let op := sample.options 0 true in
  files (oclc.run E op).2 = [] ∧
  Forall (λ c, ¬ oclc.extraction c) (calls (oclc.run E op).2) ∧
  ∀ c, c ∈ calls (oclc.run E op).2 → oclc.build_success c →
       (oclc.run E op).1 = EXIT_SUCCESS ∧
       oclc.last_but_releases 2 (calls (oclc.run E op).2) c.
Proof.
  apply (syntax_only_writes_nothing (sample.env CL_SUCCESS (λ _, true))
           (sample.options 0 true)).
  reflexivity.
Defined.

(** ** The flag "all" (C8) *)

(** C8.  Two command lines that differ only in the flag "all" give the same
    run: the same exit status and the same final world (output streams,
    files, runtime calls), from any initial world. *)
Theorem all_flag_is_ignored (E : oclc.Env) (op : oclc.Options) (b1 b2 : bool)
    (w : World) :
  oclc.main E (oclc.with_all b1 op) w = oclc.main E (oclc.with_all b2 op) w.
Proof. destruct op. reflexivity. Qed.

(** ** Enumeration (C6) *)

Section enumeration.
Context (E : oclc_test.Env).

(** The verifier's [getPlatformIds] fails exactly on a status other than
    [CL_SUCCESS]; otherwise the vector it returns has the length the runtime
    reports, whatever [nPlatformEntry] is. *)
Lemma getPlatformIds_result (nPlatformEntry : nat) (w : World) :
  let '(errCode, got, nPlatform) := oclc_test.rt_GetPlatformIDs E nPlatformEntry in
  let w' := add_calls w [(clGetPlatformIDs nPlatformEntry, errCode)] in
  (errCode = CL_SUCCESS ∧
   ∃ platformIds, oclc_test.getPlatformIds E nPlatformEntry w = (Normal platformIds, w')
                  ∧ length platformIds = nPlatform) ∨
  (errCode ≠ CL_SUCCESS ∧
   oclc_test.getPlatformIds E nPlatformEntry w
   = (Thrown (runtime_error (oclc_test.throw_text E "clGetPlatformIDs() failed")), w')).
Proof.
  unfold oclc_test.getPlatformIds.
  destruct (oclc_test.rt_GetPlatformIDs E nPlatformEntry) as [[errCode got] nPlatform].
  unfold mbind, M_bind, oclc_test.KOTLIB_THROW_IF. cbn [call_log].
  destruct (Z.eqb_spec errCode CL_SUCCESS) as [->|Hne]; simpl.
  - left. split; [done|]. eexists. split; [reflexivity|]. apply length_resize.
  - by right.
Qed.

End enumeration.

(** C6, at the failing input [getPlatformIds(1)] (line 188 of the verifier)
    on an installation with two platforms.  The runtime stores one handle
    and reports two platforms; the vector returned has length 2, above
    [maxEntries = 1], and its second element is a null handle.  The same
    holds for the compiler's [getPlatformIds] and for [getDeviceIds]. *)
Theorem enumeration_exceeds_max_entries :
  let T := sample.test_env 1 (λ _, S754_nan) in
  let E := sample.env CL_SUCCESS (λ _, true) in
  oclc_test.rt_GetPlatformIDs T 1 = (CL_SUCCESS, [11%N], 2%nat) ∧
  (oclc_test.getPlatformIds T 1 world0).1 = Normal [11%N; null] ∧
  (oclc.getPlatformIds E 1 world0).1 = Normal [11%N; null] ∧
  (oclc_test.getDeviceIds T (Some 11%N) 1 CL_DEVICE_TYPE_DEFAULT world0).1
    = Normal [101%N; null] ∧
  (oclc.getDeviceIds E (Some 11%N) 1 CL_DEVICE_TYPE_DEFAULT world0).1
    = Normal [101%N; null] ∧
  ¬ (length [11%N; null] ≤ 1)%nat.
Proof. repeat split; try (vm_compute; reflexivity). simpl. lia. Qed.

(** ** Kernel arguments (C9) *)

(** C9.  [setKernelArgs] never throws.  The runtime calls it issues are the
    first [k + 1] bindings of its arguments at the indices 0, 1, ... in the
    order given; the first [k] of them were accepted; the value returned is
    the status [b.2] of the last one (held in a [cl_uint]: converting it back
    gives the status); when arguments are left over, that last binding was
    rejected; and the value is [CL_SUCCESS] exactly when every argument was
    bound with success.  Statuses are 32-bit values. *)
Theorem setKernelArgs_binds_in_order (E : oclc_test.Env)
    (Hrange : ∀ idx a, is_cl_int (oclc_test.rt_SetKernelArg E idx a))
    (first : karg) (rest : list karg) (w : World) :
  let all := oclc_test.bindings E 0 (first :: rest) in
  ∃ (k : nat) (ret : Z) (b : cl_call * Z),
    oclc_test.setKernelArgs E first rest w
      = (Normal ret, add_calls w (take (S k) all)) ∧
    all !! k = Some b ∧
    Forall oclc_test.accepted (take k all) ∧
    ret = to_cl_uint b.2 ∧ to_cl_int ret = b.2 ∧
    ((S k < length all)%nat → ¬ oclc_test.accepted b) ∧
    (ret = CL_SUCCESS ↔ Forall oclc_test.accepted all).
Proof.
  intros all.
  destruct (setKernelArgsImpl_spec E Hrange rest 0 first w)
    as (k & ret & b & Hrun & Hk & Hpre & Hret & Hstop & Hiff).
  exists k, ret, b. repeat split; auto; try apply Hiff.
  rewrite Hret. apply to_cl_int_uint.
  apply (bindings_status_range E Hrange (first :: rest) 0).
  by eapply list_elem_of_lookup_2.
Qed.

Lemma setKernelArgs_binds_in_order_witness :
  let E := sample.test_env 1 (λ _, S754_nan) in
  let all := oclc_test.bindings E 0 [Karg 8 203; Karg 8 201; Karg 8 202; Karg 4 65536] in
  ∃ (k : nat) (ret : Z) (b : cl_call * Z),
    oclc_test.setKernelArgs E (Karg 8 203) [Karg 8 201; Karg 8 202; Karg 4 65536] world0
      = (Normal ret, add_calls world0 (take (S k) all)) ∧
    all !! k = Some b ∧
    Forall oclc_test.accepted (take k all) ∧
    ret = to_cl_uint b.2 ∧ to_cl_int ret = b.2 ∧
    ((S k < length all)%nat → ¬ oclc_test.accepted b) ∧
    (ret = CL_SUCCESS ↔ Forall oclc_test.accepted all).
Proof.
  apply (setKernelArgs_binds_in_order (sample.test_env 1 (λ _, S754_nan))).
  intros idx a. unfold is_cl_int. simpl. destruct (idx =? 1)%Z; unfold CL_SUCCESS; lia.
Defined.

(** ** The comparison of the verifier (C5) *)

(** Comparing the other way round gives the opposite answer, or none in
    both directions. *)
Lemma SFcompare_antisym (x y : spec_float) :
  SFcompare y x = option_map CompOpp (SFcompare x y).
Proof.
  destruct x as [sx|sx| |sx mx ex], y as [sy|sy| |sy my ey]; simpl;
    try reflexivity; try (by destruct sx); try (by destruct sy);
    try (by destruct sx, sy).
  destruct sx, sy; try reflexivity; simpl;
    rewrite (Z.compare_antisym ex ey); destruct (ex ?= ey)%Z; simpl;
    try reflexivity; f_equal;
    change (PosDef.Pos.compare_cont Eq) with Pos.compare;
    rewrite (Pos.compare_antisym mx my); by destruct (mx ?= my)%positive.
Qed.

(** The sign given to the rounding only shows in the sign of its result. *)
Lemma abs_binary_round (prec emax : Z) (m : positive) (e : Z) :
  SFabs (binary_round prec emax true m e) = SFabs (binary_round prec emax false m e).
Proof.
  unfold binary_round, binary_round_aux.
  destruct (shl_align _ _ _) as [mz ez].
  destruct (shr_fexp prec emax (Z.pos mz) ez loc_Exact) as [mrs' e'].
  destruct (shr_fexp prec emax _ e' loc_Exact) as [mrs'' e''].
  destruct (shr_m mrs''); try reflexivity. by destruct (_ <=? _)%Z.
Qed.

Lemma abs_binary_normalize_opp (prec emax m e : Z) :
  SFabs (binary_normalize prec emax (- m) e false)
  = SFabs (binary_normalize prec emax m e false).
Proof.
  destruct m; simpl; [done|..]; by rewrite abs_binary_round.
Qed.

(** [|x - y| = |y - x|] in floating point. *)
Lemma abs_sub_sym (prec emax : Z) (x y : spec_float) :
  SFabs (SFsub prec emax x y) = SFabs (SFsub prec emax y x).
Proof.
  destruct x as [sx|sx| |sx mx ex], y as [sy|sy| |sy my ey]; simpl;
    try reflexivity; try (by destruct sx, sy).
  rewrite (Z.min_comm ey ex).
  rewrite <- abs_binary_normalize_opp. f_equal. f_equal. lia.
Qed.

(** The test of the code is a test on the deviation as the specification
    writes it. *)
Lemma mismatch_deviation (x y z : spec_float) :
  oclc_test.mismatch x y z
  = SFltb oclc_test.tolerance (oclc_test.deviation x y z).
Proof.
  unfold oclc_test.mismatch, oclc_test.deviation, oclc_test.fsub.
  by rewrite (abs_sub_sym 24 128 z).
Qed.

(** Against a finite bound, "not above" is "at most, or not a number". *)
Lemma not_above_bound (s : bool) (m : positive) (e : Z) (d : spec_float) :
  SFltb (S754_finite s m e) d = false ↔
  SFleb d (S754_finite s m e) = true ∨ d = S754_nan.
Proof.
  unfold SFltb, SFleb. rewrite (SFcompare_antisym (S754_finite s m e) d).
  assert (Hnan : SFcompare (S754_finite s m e) d = None ↔ d = S754_nan).
  { destruct d; cbn [SFcompare]; split; congruence. }
  destruct (SFcompare (S754_finite s m e) d) as [[]|]; simpl; intuition congruence.
Qed.

(** An element passes the test of the code when its deviation is within
    the tolerance, and also when it is not a number. *)
Lemma mismatch_false (x y z : spec_float) :
  oclc_test.mismatch x y z = false ↔
  oclc_test.within_tolerance x y z = true ∨ oclc_test.deviation x y z = S754_nan.
Proof. rewrite mismatch_deviation. apply not_above_bound. Qed.

Section comparison_loop.
Context (hostX hostY hostZ : nat → spec_float).

(** Without a mismatch the loop runs to its end and leaves the world as it is. *)
Lemma loop_passes (count : nat) : ∀ (from : nat) (w : World),
  (∀ j, (from ≤ j < from + count)%nat →
        oclc_test.mismatch (hostX j) (hostY j) (hostZ j) = false) →
  for_range from count (oclc_test.check_element hostX hostY hostZ) w = (Normal tt, w).
Proof.
  induction count as [|count IH]; intros from w Hok; [done|].
  change (for_range from (S count) ?body w)
    with ((body from ;; for_range (S from) count body) w).
  unfold mbind, M_bind. unfold oclc_test.check_element at 1. rewrite Hok by lia. cbn [mret M_ret].
  apply IH. intros j Hj. apply Hok. lia.
Qed.

(** At the first mismatch the loop reports its index and returns. *)
Lemma loop_fails (count : nat) : ∀ (from i : nat) (w : World),
  (from ≤ i < from + count)%nat →
  (∀ j, (from ≤ j < i)%nat →
        oclc_test.mismatch (hostX j) (hostY j) (hostZ j) = false) →
  oclc_test.mismatch (hostX i) (hostY i) (hostZ i) = true →
  for_range from count (oclc_test.check_element hostX hostY hostZ) w
  = (Returned EXIT_FAILURE,
     mkWorld (cout w) (cerr w +:+ oclc_test.failure_line i) (files w) (calls w)).
Proof.
  induction count as [|count IH]; intros from i w Hi Hbefore Hbad; [lia|].
  change (for_range from (S count) ?body w)
    with ((body from ;; for_range (S from) count body) w).
  unfold mbind, M_bind. unfold oclc_test.check_element at 1.
  destruct (decide (i = from)) as [->|Hne].
  - by rewrite Hbad.
  - rewrite Hbefore by lia. cbn [mret M_ret].
    apply IH; [lia | | done]. intros j Hj. apply Hbefore. lia.
Qed.

(** Lines 251-259 as a whole. *)
Lemma check_result_fails (i : nat) (w : World) :
  (i < oclc_test.N_elements)%nat →
  (∀ j, (j < i)%nat → oclc_test.mismatch (hostX j) (hostY j) (hostZ j) = false) →
  oclc_test.mismatch (hostX i) (hostY i) (hostZ i) = true →
  oclc_test.check_result hostX hostY hostZ w
  = (Returned EXIT_FAILURE,
     mkWorld (cout w) (cerr w +:+ oclc_test.failure_line i) (files w) (calls w)).
Proof.
  intros Hi Hbefore Hbad. unfold oclc_test.check_result, mbind, M_bind. rewrite (loop_fails oclc_test.N_elements 0 i w); auto; try lia.
  intros j Hj. apply Hbefore. lia.
Qed.

Lemma check_result_passes (w : World) :
  (∀ j, (j < oclc_test.N_elements)%nat →
        oclc_test.mismatch (hostX j) (hostY j) (hostZ j) = false) →
  oclc_test.check_result hostX hostY hostZ w
  = (Returned EXIT_SUCCESS,
     mkWorld (cout w +:+ "Test PASSED" +:+ endl) (cerr w) (files w) (calls w)).
Proof.
  intros Hok. unfold oclc_test.check_result, mbind, M_bind. rewrite (loop_passes oclc_test.N_elements 0 w); [done|].
  intros j Hj. apply Hok. lia.
Qed.

End comparison_loop.

(** C5, at the failing input: the inputs are 1 and 1 everywhere, and the
    device answers 2 everywhere but at index 0, where it answers a NaN.  The
    check [|output - (inputA + inputB)| <= 1e-5] does not hold at index 0,
    yet the verifier reports no index, prints "Test PASSED" and ends with
    [EXIT_SUCCESS]: the test of line 252, [> 1e-5], is false on a NaN. *)
Lemma nan_passes_counterexample :
  let output := λ i, if Nat.eqb i 0 then S754_nan else sample.two in
  let E := sample.test_env 99 output in
  let inputA := λ _ : nat, sample.one in
  let inputB := λ _ : nat, sample.one in
  oclc_test.within_tolerance (inputA 0%nat) (inputB 0%nat) (output 0%nat) = false ∧
  oclc_test.main E ["vecAdd.bin"] inputA inputB world0
  = (EXIT_SUCCESS,
     mkWorld ("Test PASSED" +:+ endl) "" []
       (calls (oclc_test.device_run E "vecAdd.bin" inputA inputB world0).2)).
Proof. split; vm_compute; reflexivity. Qed.

(** X23.  The verdict as the code computes it.  When the device run has
    produced an output buffer, the verifier goes through the indices below
    N = 65536 in increasing order.  An element passes the test of line 252
    when its deviation [|output - (inputA + inputB)|] is at most 1e-5, and
    also when that deviation is not a number.  At the first index whose
    deviation is above 1e-5 the verifier reports that index on standard
    error and ends with [EXIT_FAILURE] (= 1); if every element passes, it
    prints "Test PASSED" and ends with [EXIT_SUCCESS] (= 0). *)
Theorem verifier_verdict (E : oclc_test.Env) (kernelFile : string)
    (more : list string) (inputA inputB output : nat → spec_float) (w w' : World)
    (Hrun : oclc_test.device_run E kernelFile inputA inputB w = (Normal output, w')) :
  let passes i :=
    oclc_test.within_tolerance (inputA i) (inputB i) (output i) = true ∨
    oclc_test.deviation (inputA i) (inputB i) (output i) = S754_nan in
  let above i :=
    SFltb oclc_test.tolerance
      (oclc_test.deviation (inputA i) (inputB i) (output i)) = true in
  oclc_test.N_elements = Z.to_nat 65536 ∧
  (∀ i, (i < oclc_test.N_elements)%nat →
        (∀ j, (j < i)%nat → passes j) → above i →
        oclc_test.main E (kernelFile :: more) inputA inputB w
        = (EXIT_FAILURE,
           mkWorld (cout w') (cerr w' +:+ oclc_test.failure_line i)
             (files w') (calls w'))) ∧
  ((∀ i, (i < oclc_test.N_elements)%nat → passes i) →
   oclc_test.main E (kernelFile :: more) inputA inputB w
   = (EXIT_SUCCESS,
      mkWorld (cout w' +:+ "Test PASSED" +:+ endl) (cerr w') (files w') (calls w'))).
Proof.
  intros passes above. split; [reflexivity|].
  unfold oclc_test.main, try_main, mbind, M_bind. rewrite Hrun. split.
  - intros i Hi Hbefore Hbad.
    rewrite (check_result_fails inputA inputB output i w'); auto.
    + intros j Hj. by apply mismatch_false, Hbefore.
    + by rewrite mismatch_deviation.
  - intros Hok. rewrite (check_result_passes inputA inputB output w'); auto.
    intros j Hj. by apply mismatch_false, Hok.
Qed.

Lemma verifier_verdict_witness :
  let output := λ i, if Nat.eqb i 7 then sample.one else sample.two in
  let E := sample.test_env 99 output in
  let inputA := λ _ : nat, sample.one in
  let inputB := λ _ : nat, sample.one in
  oclc_test.main E ["vecAdd.bin"] inputA inputB world0
  = (EXIT_FAILURE,
     mkWorld "" ("" +:+ oclc_test.failure_line 7) []
       (calls (oclc_test.device_run E "vecAdd.bin" inputA inputB world0).2)).
Proof.
  intros output E inputA inputB.
  assert (Hrun : oclc_test.device_run E "vecAdd.bin" inputA inputB world0
                 = (Normal output,
                    mkWorld "" "" []
                      (calls (oclc_test.device_run E "vecAdd.bin" inputA inputB world0).2)))
    by (vm_compute; reflexivity).
  destruct (verifier_verdict E "vecAdd.bin" [] inputA inputB output world0 _ Hrun)
    as (_ & Hfail & _).
  apply (Hfail 7%nat).
  - unfold oclc_test.N_elements. lia.
  - intros j Hj. left.
    do 7 (destruct j as [|j]; [vm_compute; reflexivity|]). lia.
  - vm_compute. reflexivity.
Defined.

(** * Further properties of the code *)

(** ** Enumeration in the compiler *)

(** What is left in the vector when the runtime stored
    [min(entries, count)] handles and reported [count]. *)
Lemma resize_store_front (got : list handle) (entries count : nat) :
  length got = (entries `min` count)%nat →
  resize count null (oclc.store_front got (replicate entries null))
  = (got ++ replicate (count - entries) null)%list.
Proof.
  intros Hlen. unfold oclc.store_front.
  rewrite length_replicate, drop_replicate.
  rewrite (take_ge got) by lia.
  destruct (decide (count ≤ entries)%nat) as [Hle|Hgt].
  - rewrite resize_app by lia. replace (count - entries)%nat with 0%nat by lia.
    by rewrite app_nil_r.
  - replace (entries - length got)%nat with 0%nat by lia.
    simpl replicate. rewrite app_nil_r.
    rewrite resize_ge by lia. do 2 f_equal. lia.
Qed.

(** X1.  When the runtime answers [clGetPlatformIDs] with success, having
    stored [min(nPlatformEntry, nPlatform)] handles and reporting the count
    [nPlatform], [getPlatformIds] returns the stored handles in discovery
    order, followed by one null handle for each platform beyond
    [nPlatformEntry]; it issues this one runtime call and changes nothing
    else. *)
Theorem getPlatformIds_obtained (E : oclc.Env) (nPlatformEntry nPlatform : nat)
    (got : list handle) (w : World)
    (Hrt : oclc.rt_GetPlatformIDs (oclc.rt E) nPlatformEntry
           = (CL_SUCCESS, got, nPlatform))
    (Hstored : length got = (nPlatformEntry `min` nPlatform)%nat) :
  oclc.getPlatformIds E nPlatformEntry w
  = (Normal (got ++ replicate (nPlatform - nPlatformEntry) null)%list,
     add_calls w [(clGetPlatformIDs nPlatformEntry, CL_SUCCESS)]).
Proof.
  unfold oclc.getPlatformIds. rewrite Hrt.
  unfold mbind, M_bind. cbn [call_log].
  match goal with |- context [oclc.OCLC_CHECK_ERROR E CL_SUCCESS ?w1] =>
    destruct (check_error_cases E CL_SUCCESS w1) as [[_ ->] | [Hne _]]; [|done] end.
  cbn [mret M_ret]. by rewrite resize_store_front.
Qed.

Lemma getPlatformIds_obtained_witness :
  oclc.getPlatformIds (sample.env CL_SUCCESS (λ _, true)) 16 world0
  = (Normal ([11; 12]%N ++ replicate (2 - 16) null)%list,
     add_calls world0 [(clGetPlatformIDs 16, CL_SUCCESS)]).
Proof.
  apply (getPlatformIds_obtained (sample.env CL_SUCCESS (λ _, true)) 16 2 [11; 12]%N).
  - reflexivity.
  - reflexivity.
Defined.

(** X2.  The same for [getDeviceIds]: on success, with
    [min(nDeviceEntry, nDevice)] handles stored and [nDevice] reported, it
    returns the stored handles followed by one null handle for each device
    beyond [nDeviceEntry]. *)
Theorem getDeviceIds_obtained (E : oclc.Env) (platformId : option handle)
    (deviceType : Z) (nDeviceEntry nDevice : nat) (got : list handle) (w : World)
    (Hrt : oclc.rt_GetDeviceIDs (oclc.rt E) platformId deviceType nDeviceEntry
           = (CL_SUCCESS, got, nDevice))
    (Hstored : length got = (nDeviceEntry `min` nDevice)%nat) :
  oclc.getDeviceIds E platformId nDeviceEntry deviceType w
  = (Normal (got ++ replicate (nDevice - nDeviceEntry) null)%list,
     add_calls w [(clGetDeviceIDs platformId deviceType nDeviceEntry, CL_SUCCESS)]).
Proof.
  unfold oclc.getDeviceIds. rewrite Hrt.
  unfold mbind, M_bind. cbn [call_log].
  match goal with |- context [oclc.OCLC_CHECK_ERROR E CL_SUCCESS ?w1] =>
    destruct (check_error_cases E CL_SUCCESS w1) as [[_ ->] | [Hne _]]; [|done] end.
  cbn [mret M_ret]. by rewrite resize_store_front.
Qed.

Lemma getDeviceIds_obtained_witness :
  oclc.getDeviceIds (sample.env CL_SUCCESS (λ _, true)) (Some 11%N) 8
    CL_DEVICE_TYPE_GPU world0
  = (Normal ([101; 102]%N ++ replicate (2 - 8) null)%list,
     add_calls world0
       [(clGetDeviceIDs (Some 11%N) CL_DEVICE_TYPE_GPU 8, CL_SUCCESS)]).
Proof.
  apply (getDeviceIds_obtained (sample.env CL_SUCCESS (λ _, true)) (Some 11%N)
           CL_DEVICE_TYPE_GPU 8 2 [101; 102]%N).
  - reflexivity.
  - reflexivity.
Defined.

(** ** Reading the sources *)

Lemma readSource_readable (E : oclc.Env) (filenames srcs : list string) (w : World) :
  Forall2 (λ f text, oclc.fs_read E f = Some text) filenames srcs →
  oclc.readSource E filenames w = (Normal srcs, w).
Proof.
  intros Hread. induction Hread as [|f text filenames srcs Hf _ IH]; [done|].
  simpl. unfold mbind, M_bind, oclc.readSource1. rewrite Hf. cbn [mret M_ret].
  by rewrite IH.
Qed.

(** X3.  When every file can be opened, [readSource] returns the contents
    of the files in the order of the file names, one text per name, and
    leaves the world as it is. *)
Theorem readSource_reads_all (E : oclc.Env) (filenames srcs : list string)
    (w : World)
    (Hread : Forall2 (λ f text, oclc.fs_read E f = Some text) filenames srcs) :
  oclc.readSource E filenames w = (Normal srcs, w) ∧
  length srcs = length filenames.
Proof.
  split; [by apply readSource_readable|]. symmetry. by eapply Forall2_length.
Qed.

Lemma readSource_reads_all_witness :
  oclc.readSource (sample.env CL_SUCCESS (λ _, true)) ["a.cl"; "b.cl"] world0
  = (Normal ["__kernel void vecAdd() {}"; "__kernel void vecAdd() {}"], world0) ∧
  length ["__kernel void vecAdd() {}"; "__kernel void vecAdd() {}"]
  = length ["a.cl"; "b.cl"].
Proof.
  apply (readSource_reads_all (sample.env CL_SUCCESS (λ _, true))).
  repeat constructor.
Defined.

(** X4.  [readSource] stops at the first file that cannot be opened: it
    throws [std::runtime_error] with the text "Failed to read file: "
    followed by the name of that file, whatever follows it in the list. *)
Theorem readSource_first_unreadable (E : oclc.Env)
    (before after : list string) (f : string) (w : World)
    (Hbefore : Forall (λ g, is_Some (oclc.fs_read E g)) before)
    (Hf : oclc.fs_read E f = None) :
  oclc.readSource E (before ++ f :: after) w
  = (Thrown (runtime_error (oclc.throw_text E ("Failed to read file: " +:+ f))), w).
Proof.
  induction Hbefore as [|g before [text Hg] _ IH]; simpl;
    unfold mbind, M_bind, oclc.readSource1.
  - by rewrite Hf.
  - rewrite Hg. cbn [mret M_ret]. by rewrite IH.
Qed.

Lemma readSource_first_unreadable_witness :
  let E := oclc.mkEnv (sample.runtime CL_SUCCESS) sample.table "_Map_base::at"
             (λ text, text) "" (λ f, if String.eqb f "a.cl" then Some "x" else None)
             (λ _, true) in
  oclc.readSource E (["a.cl"] ++ "b.cl" :: ["c.cl"]) world0
  = (Thrown (runtime_error ("Failed to read file: " +:+ "b.cl")), world0).
Proof.
  intros E. apply (readSource_first_unreadable E ["a.cl"] ["c.cl"] "b.cl" world0).
  - repeat constructor. by exists "x".
  - reflexivity.
Defined.

(** ** The messages of the error check *)

(** X5.  For a status other than [CL_SUCCESS] that the table lists with
    [text], [OCLC_CHECK_ERROR] throws [std::runtime_error] with the message
    "[OpenCL] [<code>] <text>" and [OCLC_CHECK_ERROR_WITH_MSG] with the same
    message, a line break and the extra text; the world is unchanged. *)
Theorem check_error_listed (E : oclc.Env) (errCode : Z) (text : string)
    (Hne : errCode ≠ CL_SUCCESS)
    (Hlisted : oclc.kErrorMessageMap E !! errCode = Some text) :
  (∀ w, oclc.OCLC_CHECK_ERROR E errCode w
        = (Thrown (runtime_error (oclc.throw_text E
             ("[OpenCL] [" +:+ to_string errCode +:+ "] " +:+ text))), w)) ∧
  (∀ msg w, oclc.OCLC_CHECK_ERROR_WITH_MSG E errCode msg w
        = (Thrown (runtime_error (oclc.throw_text E
             ("[OpenCL] [" +:+ to_string errCode +:+ "] " +:+ text +:+ endl +:+ msg))),
           w)).
Proof.
  split; [intros w | intros msg w];
    unfold oclc.OCLC_CHECK_ERROR, oclc.OCLC_CHECK_ERROR_WITH_MSG, oclc.KOTLIB_THROW_IF;
    (destruct (Z.eqb_spec errCode CL_SUCCESS) as [|_]; [done|]); simpl;
    unfold mbind, M_bind, oclc.map_at; by rewrite Hlisted.
Qed.

Lemma check_error_listed_witness :
  oclc.OCLC_CHECK_ERROR (sample.env CL_SUCCESS (λ _, true)) (-5) world0
  = (Thrown (runtime_error ("[OpenCL] [" +:+ to_string (-5) +:+ "] "
                            +:+ "CL_OUT_OF_RESOURCES")), world0).
Proof.
  apply (check_error_listed (sample.env CL_SUCCESS (λ _, true)) (-5)
           "CL_OUT_OF_RESOURCES").
  - discriminate.
  - vm_compute. reflexivity.
Defined.

(** What a failed check throws, in one expression. *)
Lemma check_error_text (E : oclc.Env) (errCode : Z) (w : World) :
  errCode ≠ CL_SUCCESS →
  ∃ e, oclc.OCLC_CHECK_ERROR E errCode w = (Thrown e, w) ∧ what e = check_text E errCode.
Proof.
  intros Hne. unfold oclc.OCLC_CHECK_ERROR, oclc.KOTLIB_THROW_IF, check_text.
  destruct (Z.eqb_spec errCode CL_SUCCESS) as [|_]; [done|]. simpl.
  unfold mbind, M_bind, oclc.map_at.
  destruct (oclc.kErrorMessageMap E !! errCode); simpl; eauto.
Qed.

(** X6.  The build status is classified three ways.  [CL_SUCCESS] lets the
    run go on.  [CL_BUILD_PROGRAM_FAILURE], when the table lists it, throws
    the formatted message followed by a line break and the build log of
    device [deviceIds[di]]; the log is fetched by one query whose own status
    is ignored.  Any other status, [CL_INVALID_BUILD_OPTIONS] included, is
    handled by the plain error check, without a query for the log. *)
Theorem check_build_classification (E : oclc.Env) (device : option handle)
    (text : string) (w : World)
    (Hlisted : oclc.kErrorMessageMap E !! CL_BUILD_PROGRAM_FAILURE = Some text) :
  oclc.check_build E CL_SUCCESS device w = (Normal tt, w) ∧
  oclc.check_build E CL_BUILD_PROGRAM_FAILURE device w
  = (Thrown (runtime_error (oclc.throw_text E
       ("[OpenCL] [" +:+ to_string CL_BUILD_PROGRAM_FAILURE +:+ "] " +:+ text
        +:+ endl +:+ (oclc.rt_BuildLog (oclc.rt E) device).2))),
     add_calls w [(clGetProgramBuildInfo device,
                   (oclc.rt_BuildLog (oclc.rt E) device).1)]) ∧
  (∀ errCode, errCode ≠ CL_SUCCESS → errCode ≠ CL_BUILD_PROGRAM_FAILURE →
     oclc.check_build E errCode device w = oclc.OCLC_CHECK_ERROR E errCode w).
Proof.
  split; [done|]. split.
  - unfold oclc.check_build. simpl.
    destruct (oclc.rt_BuildLog (oclc.rt E) device) as [logStatus buildLog].
    unfold mbind at 1, M_bind at 1. cbn [call_log].
    unfold oclc.OCLC_CHECK_ERROR_WITH_MSG, oclc.KOTLIB_THROW_IF. simpl.
    unfold mbind, M_bind, oclc.map_at. by rewrite Hlisted.
  - intros errCode H0 H11. unfold oclc.check_build.
    destruct (Z.eqb_spec errCode CL_SUCCESS); [done|].
    destruct (Z.eqb_spec errCode CL_BUILD_PROGRAM_FAILURE); [done|].
    by destruct (errCode =? CL_INVALID_BUILD_OPTIONS)%Z.
Qed.

Lemma check_build_classification_witness :
  oclc.check_build (sample.env CL_SUCCESS (λ _, true)) CL_BUILD_PROGRAM_FAILURE
    (Some 101%N) world0
  = (Thrown (runtime_error
       ("[OpenCL] [" +:+ to_string CL_BUILD_PROGRAM_FAILURE +:+ "] "
        +:+ "CL_BUILD_PROGRAM_FAILURE" +:+ endl +:+ "error: expected ';'")),
     add_calls world0 [(clGetProgramBuildInfo (Some 101%N), CL_SUCCESS)]).
Proof.
  apply (check_build_classification (sample.env CL_SUCCESS (λ _, true))
           (Some 101%N) "CL_BUILD_PROGRAM_FAILURE" world0).
  vm_compute. reflexivity.
Defined.

(** ** Runs of the compiler that reach the build request *)

Lemma check_error_success (E : oclc.Env) (w : World) :
  oclc.OCLC_CHECK_ERROR E CL_SUCCESS w = (Normal tt, w).
Proof. reflexivity. Qed.

Lemma getPlatformIds_success (E : oclc.Env) (entries n : nat) (got : list handle)
    (w : World) :
  oclc.rt_GetPlatformIDs (oclc.rt E) entries = (CL_SUCCESS, got, n) →
  oclc.getPlatformIds E entries w
  = (Normal (resize n null (oclc.store_front got (replicate entries null))),
     add_calls w [(clGetPlatformIDs entries, CL_SUCCESS)]).
Proof. intros Hrt. unfold oclc.getPlatformIds. by rewrite Hrt. Qed.

Lemma getDeviceIds_success (E : oclc.Env) (platformId : option handle) (ty : Z)
    (entries n : nat) (got : list handle) (w : World) :
  oclc.rt_GetDeviceIDs (oclc.rt E) platformId ty entries = (CL_SUCCESS, got, n) →
  oclc.getDeviceIds E platformId entries ty w
  = (Normal (resize n null (oclc.store_front got (replicate entries null))),
     add_calls w [(clGetDeviceIDs platformId ty entries, CL_SUCCESS)]).
Proof. intros Hrt. unfold oclc.getDeviceIds. by rewrite Hrt. Qed.

Lemma leave_leave {A} (l1 l2 : list (cl_call * Z)) (r : outcome A * World) :
  leave l1 (leave l2 r) = leave (l2 ++ l1) r.
Proof. destruct r as [[a|e|s|s] w]; cbn [leave]; by rewrite ?add_calls_app. Qed.

(** The [try] block up to the build request, in one step: what follows is
    the build and the extraction, and then the releases. *)
Lemma main_body_to_build (E : oclc.Env) (op : oclc.Options) (ty : Z)
    (platformIds deviceIds : list handle) (srcs : list string) (w : World) :
  reaches_build E op ty platformIds deviceIds srcs →
  oclc.main_body E op w
  = leave (releases E op deviceIds srcs)
      (oclc.build_and_extract E op deviceIds
         (add_calls w (calls_to_build op ty platformIds deviceIds srcs))).
Proof.
  intros (Hhelp & Hlist & Hargs & Hty & (gotp & np & Hp & ->) &
          (gotd & nd & Hd & Hdev) & Hctx & Hsrc & Hprog).
  unfold oclc.main_body. rewrite Hhelp, Hlist.
  unfold mbind at 1, M_bind at 1. cbn [mret M_ret].
  unfold mbind at 1, M_bind at 1. rewrite (getPlatformIds_success E _ _ _ w Hp).
  unfold mbind at 1, M_bind at 1. cbn [mret M_ret].
  unfold mbind at 1, M_bind at 1.
  assert (Hlen : (length (oclc.opt_arguments op) <? 1)%nat = false).
  { destruct (oclc.opt_arguments op); [done|]. reflexivity. }
  rewrite Hlen. cbn [mret M_ret].
  unfold mbind at 1, M_bind at 1. unfold oclc.map_at at 1. rewrite Hty.
  cbn [mret M_ret].
  unfold mbind at 1, M_bind at 1.
  match goal with |- context [oclc.getDeviceIds E ?p ?k ty ?w1] =>
    rewrite (getDeviceIds_success E p ty k nd gotd w1 Hd) end.
  rewrite <- Hdev. cbv zeta. unfold releases.
  destruct (oclc.rt_CreateContext (oclc.rt E) _) as [c context].
  simpl in Hctx. subst c.
  destruct (oclc.rt_CreateProgramWithSource (oclc.rt E) srcs) as [c program]
    eqn:Hprog'.
  simpl in Hprog. subst c. cbn [snd].
  unfold mbind at 1, M_bind at 1. cbn [call_log].
  unfold unique_ptr at 1, scope at 1.
  unfold mbind at 1, M_bind at 1. rewrite check_error_success.
  unfold mbind at 1, M_bind at 1.
  match goal with |- context [oclc.readSource E ?fs ?w1] =>
    rewrite (readSource_readable E fs srcs w1 Hsrc) end.
  rewrite Hprog'.
  unfold mbind at 1, M_bind at 1. cbn [call_log].
  unfold unique_ptr at 1, scope at 1.
  unfold mbind at 1, M_bind at 1. rewrite check_error_success.
  rewrite leave_leave. do 2 f_equal.
  unfold add_calls, calls_to_build; cbn [cout cerr files calls].
  rewrite <- !app_assoc. reflexivity.
Qed.

Lemma extract_binaries_success (E : oclc.Env) (op : oclc.Options) (w : World) :
  (oclc.rt_NumDevices (oclc.rt E)).1 = CL_SUCCESS →
  (oclc.rt_BinarySizes (oclc.rt E)).1 = CL_SUCCESS →
  (oclc.rt_Binaries (oclc.rt E)).1 = CL_SUCCESS →
  oclc.extract_binaries E op w
  = (Normal tt,
     mkWorld (cout w) (cerr w +:+ oclc.failure_log E op)
       (files w ++ oclc.written_files E op)
       (calls w ++ [(clGetProgramInfo CL_PROGRAM_NUM_DEVICES, CL_SUCCESS);
                    (clGetProgramInfo CL_PROGRAM_BINARY_SIZES, CL_SUCCESS);
                    oclc.fetched])).
Proof.
  intros H1 H2 H3.
  unfold oclc.extract_binaries, oclc.failure_log, oclc.written_files,
    oclc.persisted, oclc.failed.
  pose proof (write_loop E op (oclc.nDevice E) 0) as Hloop.
  unfold oclc.nDevice, oclc.binSize in *.
  destruct (oclc.rt_NumDevices (oclc.rt E)) as [c1 n].
  destruct (oclc.rt_BinarySizes (oclc.rt E)) as [c2 sizes].
  destruct (oclc.rt_Binaries (oclc.rt E)) as [c3 bins].
  simpl in H1, H2, H3, Hloop. subst c1 c2 c3.
  unfold mbind, M_bind. cbn [call_log]. rewrite !check_error_success.
  rewrite Hloop. simpl. by rewrite <- !app_assoc.
Qed.

(** Discharges [reaches_build] on closed data. *)
Ltac reaches_build_by_computation :=
  unfold reaches_build;
  repeat match goal with
         | |- _ ∧ _ => split
         | |- ∃ _, _ => eexists
         | |- Forall2 _ _ _ => constructor
         | |- _ ≠ _ => discriminate
         | |- _ = _ => vm_compute; reflexivity
         end.

(** X7.  A run that gets to the build request with its platform index and
    its device index inside the enumerated vectors, whose build succeeds,
    with binaries asked for and the three queries on the program answered
    with success: it ends with [EXIT_SUCCESS]; standard output stays empty;
    standard error holds exactly the lines for the files that could not be
    opened; the files are those of [written_files]; and the runtime calls
    are, in this order: platform enumeration with 16 entries, device
    enumeration on [platformIds[pi]] with the selected type and 16 entries,
    context creation, program creation from the sources in command-line
    order, the build with the option string as given, the three queries,
    and at the end of the [try] block the release of the program and then
    of the context by the deleters of their [std::unique_ptr]s (each only
    for a handle that is not null): ten calls when both handles are not
    null. *)
Theorem run_success (E : oclc.Env) (op : oclc.Options) (ty : Z)
    (platformIds deviceIds : list handle) (srcs : list string)
    (Hreach : reaches_build E op ty platformIds deviceIds srcs)
    (Hpi : (oclc.opt_platform op < length platformIds)%nat)
    (Hdi : (oclc.opt_device op < length deviceIds)%nat)
    (Hbuild : oclc.rt_BuildProgram (oclc.rt E)
                (ptr_read deviceIds (oclc.opt_device op) (length deviceIds))
                (oclc.opt_option op) = CL_SUCCESS)
    (Hbinaries : oclc.opt_fsyntax_only op = false)
    (Hnum : (oclc.rt_NumDevices (oclc.rt E)).1 = CL_SUCCESS)
    (Hsizes : (oclc.rt_BinarySizes (oclc.rt E)).1 = CL_SUCCESS)
    (Hbins : (oclc.rt_Binaries (oclc.rt E)).1 = CL_SUCCESS) :
  oclc.run E op
  = (EXIT_SUCCESS,
     mkWorld "" (oclc.failure_log E op) (oclc.written_files E op)
       (calls_to_build op ty platformIds deviceIds srcs ++
        [(clBuildProgram (ptr_read deviceIds (oclc.opt_device op) (length deviceIds))
            (oclc.opt_option op), CL_SUCCESS);
         (clGetProgramInfo CL_PROGRAM_NUM_DEVICES, CL_SUCCESS);
         (clGetProgramInfo CL_PROGRAM_BINARY_SIZES, CL_SUCCESS);
         (clGetProgramInfo CL_PROGRAM_BINARIES, CL_SUCCESS)] ++
        releases E op deviceIds srcs)).
Proof.
  unfold oclc.run, oclc.main, try_main.
  rewrite (main_body_to_build E op ty platformIds deviceIds srcs world0 Hreach).
  unfold oclc.build_and_extract. cbv zeta. rewrite Hbuild, Hbinaries.
  unfold mbind at 1, M_bind at 1. cbn [call_log].
  unfold mbind at 1, M_bind at 1. cbn [oclc.check_build Z.eqb CL_SUCCESS mret M_ret].
  unfold mbind at 1, M_bind at 1. cbn [mret M_ret].
  rewrite extract_binaries_success by done.
  cbn [leave cout cerr files calls add_calls world0].
  rewrite <- !app_assoc. reflexivity.
Qed.

Lemma run_success_witness :
  let E := sample.env CL_SUCCESS (λ name, String.eqb name "vecAdd.bin.1") in
  let op := sample.options 0 false in
  oclc.run E op
  = (EXIT_SUCCESS,
     mkWorld "" (oclc.failure_log E op) (oclc.written_files E op)
       (calls_to_build op CL_DEVICE_TYPE_DEFAULT [11; 12]%N [101; 102]%N
          ["__kernel void vecAdd() {}"] ++
        [(clBuildProgram (ptr_read [101; 102]%N (oclc.opt_device op) (length [101; 102]%N))
            (oclc.opt_option op), CL_SUCCESS);
         (clGetProgramInfo CL_PROGRAM_NUM_DEVICES, CL_SUCCESS);
         (clGetProgramInfo CL_PROGRAM_BINARY_SIZES, CL_SUCCESS);
         (clGetProgramInfo CL_PROGRAM_BINARIES, CL_SUCCESS)] ++
        [(clReleaseProgram 401%N, CL_SUCCESS);
         (clReleaseContext 301%N, CL_SUCCESS)])).
Proof.
  intros E op.
  apply (run_success E op CL_DEVICE_TYPE_DEFAULT [11; 12]%N [101; 102]%N
           ["__kernel void vecAdd() {}"]); try reflexivity.
  - reaches_build_by_computation.
  - simpl. lia.
  - simpl. lia.
Defined.

(** X8.  A run that gets to the build request and whose build is rejected
    with status [c] ends with [EXIT_FAILURE], in syntax-only mode or not;
    it writes no file and queries nothing about the program.  For
    [CL_BUILD_PROGRAM_FAILURE] the text on standard error is the message of
    the status followed by the build log, fetched by one more runtime call;
    for any other status it is the message of the status alone (the text of
    the lookup exception when the table does not list the status).  While
    the exception unwinds the [try] block, the program and then the context
    are released; these are the last runtime calls. *)
Theorem run_build_rejected (E : oclc.Env) (op : oclc.Options) (ty : Z)
    (platformIds deviceIds : list handle) (srcs : list string)
    (Hreach : reaches_build E op ty platformIds deviceIds srcs)
    (Hrejected : oclc.rt_BuildProgram (oclc.rt E)
                   (ptr_read deviceIds (oclc.opt_device op) (length deviceIds))
                   (oclc.opt_option op) ≠ CL_SUCCESS) :
  let devices := ptr_read deviceIds (oclc.opt_device op) (length deviceIds) in
  let c := oclc.rt_BuildProgram (oclc.rt E) devices (oclc.opt_option op) in
  let device := deviceIds !! oclc.opt_device op in
  let log := oclc.rt_BuildLog (oclc.rt E) device in
  oclc.run E op
  = (EXIT_FAILURE,
     mkWorld ""
       ((if (c =? CL_BUILD_PROGRAM_FAILURE)%Z
         then match oclc.kErrorMessageMap E !! c with
              | Some text =>
                  oclc.throw_text E ("[OpenCL] [" +:+ to_string c +:+ "] "
                                     +:+ text +:+ endl +:+ log.2)
              | None => oclc.at_what E
              end
         else check_text E c) +:+ endl)
       []
       (calls_to_build op ty platformIds deviceIds srcs ++
        (clBuildProgram devices (oclc.opt_option op), c) ::
        (if (c =? CL_BUILD_PROGRAM_FAILURE)%Z
         then [(clGetProgramBuildInfo device, log.1)] else []) ++
        releases E op deviceIds srcs)).
Proof.
  intros devices c device log.
  unfold oclc.run, oclc.main, try_main.
  rewrite (main_body_to_build E op ty platformIds deviceIds srcs world0 Hreach).
  unfold oclc.build_and_extract. cbv zeta. fold devices. fold c. fold device.
  unfold mbind at 1, M_bind at 1. cbn [call_log].
  unfold mbind at 1, M_bind at 1. unfold oclc.check_build.
  destruct (Z.eqb_spec c CL_SUCCESS) as [|_]; [done|].
  destruct (c =? CL_BUILD_PROGRAM_FAILURE)%Z.
  - fold log. destruct log as [logStatus buildLog].
    unfold mbind at 1, M_bind at 1. cbn [call_log].
    unfold oclc.OCLC_CHECK_ERROR_WITH_MSG, oclc.KOTLIB_THROW_IF.
    destruct (Z.eqb_spec c CL_SUCCESS) as [|_]; [done|]. cbn [negb].
    unfold mbind, M_bind, oclc.map_at.
    destruct (oclc.kErrorMessageMap E !! c); cbn; by rewrite <- ?app_assoc.
  - assert (Hsame : ∀ w, (if (c =? CL_INVALID_BUILD_OPTIONS)%Z
                          then oclc.OCLC_CHECK_ERROR E c
                          else oclc.OCLC_CHECK_ERROR E c) w
                         = oclc.OCLC_CHECK_ERROR E c w)
      by (intros w; by destruct (c =? CL_INVALID_BUILD_OPTIONS)%Z).
    rewrite Hsame.
    match goal with |- context [oclc.OCLC_CHECK_ERROR E c ?w1] =>
      destruct (check_error_text E c w1 Hrejected) as (e & -> & He) end.
    cbn. rewrite He. by rewrite <- ?app_assoc.
Qed.

Lemma run_build_rejected_witness :
  (oclc.run (sample.env (-11) (λ _, true)) (sample.options 0 true)).1 = EXIT_FAILURE.
Proof.
  rewrite (run_build_rejected (sample.env (-11) (λ _, true)) (sample.options 0 true)
             CL_DEVICE_TYPE_DEFAULT [11; 12]%N [101; 102]%N
             ["__kernel void vecAdd() {}"]).
  - reflexivity.
  - reaches_build_by_computation.
  - vm_compute. discriminate.
Defined.

(** ** Computations that never return from [main] *)

Lemma nr_ret {A} (a : A) : never_returns (mret a : M A).
Proof. by intros w s w'. Qed.

Lemma nr_throw {A} (e : exception) : never_returns (@throw A e).
Proof. by intros w s w'. Qed.

Lemma nr_bind {A B} (m : M A) (f : A → M B) :
  never_returns m → (∀ a, never_returns (f a)) → never_returns (m ≫= f).
Proof.
  intros Hm Hf w s w'. unfold mbind, M_bind.
  destruct (m w) as [[a|e|s1|s1] w1] eqn:Hmw; [apply Hf|done|..];
    by destruct (Hm w s1 w1).
Qed.

Lemma nr_scope {A} (released : list (cl_call * Z)) (block : M A) :
  never_returns block → never_returns (scope released block).
Proof.
  intros Hm w s w'. unfold scope.
  destruct (block w) as [[a|e|s1|s1] w1] eqn:Hmw; cbn [leave]; [done..| |];
    by destruct (Hm w s1 w1).
Qed.

Lemma nr_for_range (body : nat → M unit) (count : nat) :
  (∀ i, never_returns (body i)) → ∀ from, never_returns (for_range from count body).
Proof.
  intros Hbody. induction count as [|count IH]; intros from; simpl.
  - apply nr_ret.
  - apply nr_bind; [apply Hbody | intros _; apply IH].
Qed.

Lemma nr_cout (s : string) : never_returns (cout_put s).
Proof. by intros w st w'. Qed.

Lemma nr_cerr (s : string) : never_returns (cerr_put s).
Proof. by intros w st w'. Qed.

Lemma nr_file (name : string) (content : list byte) :
  never_returns (file_put name content).
Proof. by intros w st w'. Qed.

Lemma nr_call (c : cl_call) (status : Z) : never_returns (call_log c status).
Proof. by intros w st w'. Qed.

Create HintDb nr discriminated.

#[local] Hint Resolve nr_ret nr_throw nr_cout nr_cerr nr_file nr_call : nr.

(** Walks through a sequence of steps none of which returns. *)
Ltac nr_steps :=
  repeat first
    [ solve [auto with nr]
    | apply nr_for_range; intros
    | apply nr_bind; [|intros] ].

Section never_returns_compiler.
Context (E : oclc.Env).

Lemma nr_map_at {K V} `{Countable K} (m : gmap K V) (key : K) :
  never_returns (oclc.map_at E m key).
Proof. unfold oclc.map_at. destruct (m !! key); auto with nr. Qed.

Lemma nr_check_error (errCode : Z) : never_returns (oclc.OCLC_CHECK_ERROR E errCode).
Proof.
  unfold oclc.OCLC_CHECK_ERROR, oclc.KOTLIB_THROW_IF.
  destruct (negb _); [|apply nr_ret].
  apply nr_bind; [|intros; apply nr_throw].
  apply nr_bind; [apply nr_map_at | intros; apply nr_ret].
Qed.

Lemma nr_check_error_with_msg (errCode : Z) (msg : string) :
  never_returns (oclc.OCLC_CHECK_ERROR_WITH_MSG E errCode msg).
Proof.
  unfold oclc.OCLC_CHECK_ERROR_WITH_MSG, oclc.KOTLIB_THROW_IF.
  destruct (negb _); [|apply nr_ret].
  apply nr_bind; [|intros; apply nr_throw].
  apply nr_bind; [apply nr_map_at | intros; apply nr_ret].
Qed.

Lemma nr_getPlatformIds (n : nat) : never_returns (oclc.getPlatformIds E n).
Proof.
  unfold oclc.getPlatformIds.
  destruct (oclc.rt_GetPlatformIDs (oclc.rt E) n) as [[errCode got] nPlatform].
  nr_steps. apply nr_check_error.
Qed.

Lemma nr_getDeviceIds (platformId : option handle) (n : nat) (ty : Z) :
  never_returns (oclc.getDeviceIds E platformId n ty).
Proof.
  unfold oclc.getDeviceIds.
  destruct (oclc.rt_GetDeviceIDs (oclc.rt E) platformId ty n) as [[errCode got] nDevice].
  nr_steps. apply nr_check_error.
Qed.

Lemma nr_readSource (filenames : list string) :
  never_returns (oclc.readSource E filenames).
Proof.
  induction filenames as [|f rest IH]; simpl; [apply nr_ret|].
  apply nr_bind.
  - unfold oclc.readSource1. destruct (oclc.fs_read E f); auto with nr.
  - intros src. apply nr_bind; [exact IH | intros; apply nr_ret].
Qed.

Lemma nr_showPlatformInfo (platformId : option handle) :
  never_returns (oclc.showPlatformInfo E platformId).
Proof.
  unfold oclc.showPlatformInfo.
  destruct (oclc.rt_GetPlatformInfo (oclc.rt E) platformId CL_PLATFORM_NAME)
    as [c1 s1].
  destruct (oclc.rt_GetPlatformInfo (oclc.rt E) platformId CL_PLATFORM_VERSION)
    as [c2 s2].
  nr_steps; apply nr_check_error.
Qed.

Lemma nr_showDeviceInfo (deviceId : option handle) :
  never_returns (oclc.showDeviceInfo E deviceId).
Proof.
  unfold oclc.showDeviceInfo.
  destruct (oclc.rt_GetDeviceInfo (oclc.rt E) deviceId CL_DEVICE_NAME) as [c1 s1].
  destruct (oclc.rt_GetDeviceInfo (oclc.rt E) deviceId CL_DEVICE_VERSION) as [c2 s2].
  nr_steps; apply nr_check_error.
Qed.

Lemma nr_showInfo (platformIds : list handle) (ty : Z) :
  never_returns (oclc.showInfo E platformIds ty).
Proof.
  unfold oclc.showInfo.
  nr_steps; auto using nr_showPlatformInfo, nr_getDeviceIds, nr_showDeviceInfo.
Qed.

Lemma nr_check_build (errCode : Z) (device : option handle) :
  never_returns (oclc.check_build E errCode device).
Proof.
  unfold oclc.check_build.
  destruct (errCode =? CL_SUCCESS)%Z; [apply nr_ret|].
  destruct (errCode =? CL_BUILD_PROGRAM_FAILURE)%Z.
  - destruct (oclc.rt_BuildLog (oclc.rt E) device) as [logStatus buildLog].
    nr_steps. apply nr_check_error_with_msg.
  - destruct (errCode =? CL_INVALID_BUILD_OPTIONS)%Z; apply nr_check_error.
Qed.

Lemma nr_extract_binaries (op : oclc.Options) :
  never_returns (oclc.extract_binaries E op).
Proof.
  unfold oclc.extract_binaries.
  destruct (oclc.rt_NumDevices (oclc.rt E)) as [c1 n].
  destruct (oclc.rt_BinarySizes (oclc.rt E)) as [c2 sizes].
  destruct (oclc.rt_Binaries (oclc.rt E)) as [c3 bins].
  nr_steps; try apply nr_check_error.
  unfold oclc.write_binary. destruct (_ =? 0)%N; [apply nr_ret|].
  cbv zeta. destruct (oclc.fs_writable E _); auto with nr.
Qed.

End never_returns_compiler.

#[local] Hint Resolve nr_map_at nr_check_error nr_check_error_with_msg
  nr_getPlatformIds nr_getDeviceIds nr_readSource nr_showInfo nr_check_build
  nr_extract_binaries : nr.

(** ** Early exits of the compiler *)

(** X9.  With the help flag the run prints the usage text and ends with
    [EXIT_SUCCESS] without a single call to the OpenCL runtime, whatever
    else is on the command line. *)
Theorem help_needs_no_runtime (E : oclc.Env) (op : oclc.Options)
    (Hhelp : oclc.opt_help op = true) :
  oclc.run E op = (EXIT_SUCCESS, mkWorld (oclc.usage E) "" [] []).
Proof.
  unfold oclc.run, oclc.main, try_main, oclc.main_body. rewrite Hhelp.
  reflexivity.
Qed.

Lemma help_needs_no_runtime_witness :
  oclc.run (sample.env (-9999) (λ _, false))
    (oclc.mkOptions true true "tpu" "out" "-cl-fast" 7 9 true true [])
  = (EXIT_SUCCESS, mkWorld "usage: oclc [options] file..." "" [] []).
Proof.
  apply (help_needs_no_runtime (sample.env (-9999) (λ _, false))).
  reflexivity.
Defined.

(** X10.  Without a source file (and without the help and list flags) the
    run ends with [EXIT_FAILURE] after exactly one runtime call, the
    platform enumeration.  The complaint "Please specify only one or more
    source file" is printed only if that enumeration succeeds; if it fails,
    the text on standard error is that of the failed check instead.  The
    device type, valid or not, is not looked at. *)
Theorem no_source_argument (E : oclc.Env) (op : oclc.Options)
    (Hhelp : oclc.opt_help op = false) (Hlist : oclc.opt_list op = false)
    (Hargs : oclc.opt_arguments op = []) :
  let errCode := (oclc.rt_GetPlatformIDs (oclc.rt E) oclc.kNDefaultPlatformEntry).1.1 in
  oclc.run E op
  = (EXIT_FAILURE,
     mkWorld ""
       ((if (errCode =? CL_SUCCESS)%Z
         then "Please specify only one or more source file"
         else check_text E errCode) +:+ endl)
       [] [(clGetPlatformIDs oclc.kNDefaultPlatformEntry, errCode)]).
Proof.
  intros errCode. unfold oclc.run, oclc.main, try_main, oclc.main_body.
  rewrite Hhelp, Hlist, Hargs. unfold oclc.getPlatformIds. subst errCode.
  destruct (oclc.rt_GetPlatformIDs (oclc.rt E) oclc.kNDefaultPlatformEntry)
    as [[errCode got] n]. cbn [fst].
  unfold mbind, M_bind. cbn [mret M_ret call_log].
  destruct (Z.eqb_spec errCode CL_SUCCESS) as [->|Hne].
  - reflexivity.
  - match goal with |- context [oclc.OCLC_CHECK_ERROR E errCode ?w1] =>
      destruct (check_error_text E errCode w1 Hne) as (e & -> & He) end.
    cbn. by rewrite He.
Qed.

Lemma no_source_argument_witness :
  oclc.run (sample.env CL_SUCCESS (λ _, true))
    (oclc.mkOptions false false "tpu" "" "" 0 0 false false [])
  = (EXIT_FAILURE,
     mkWorld "" ("Please specify only one or more source file" +:+ endl) []
       [(clGetPlatformIDs 16, CL_SUCCESS)]).
Proof.
  apply (no_source_argument (sample.env CL_SUCCESS (λ _, true))
           (oclc.mkOptions false false "tpu" "" "" 0 0 false false []));
    reflexivity.
Defined.

(** The device types the compiler knows. *)
Lemma device_type_lookup (ty : string) :
  ty ∉ ["all"; "default"; "cpu"; "gpu"] → oclc.kDeviceTypeMap !! ty = None.
Proof.
  intros Hty. unfold oclc.kDeviceTypeMap.
  rewrite !lookup_insert_ne; [apply lookup_empty|..];
    intros <-; apply Hty; rewrite !elem_of_cons; auto.
Qed.

(** X11.  A device type other than "all", "default", "cpu" and "gpu" is
    found out by the lookup [kDeviceTypeMap.at], after the platforms were
    enumerated and before any device is: when listing is asked for or a
    source file is given, the run ends with [EXIT_FAILURE], the text of the
    lookup exception alone on standard error, and the platform enumeration
    as its only runtime call. *)
Theorem unknown_device_type (E : oclc.Env) (op : oclc.Options)
    (Hhelp : oclc.opt_help op = false)
    (Hplatforms : (oclc.rt_GetPlatformIDs (oclc.rt E) oclc.kNDefaultPlatformEntry).1.1
                  = CL_SUCCESS)
    (Hty : oclc.opt_device_type op ∉ ["all"; "default"; "cpu"; "gpu"])
    (Hwork : oclc.opt_list op = true ∨ oclc.opt_arguments op ≠ []) :
  oclc.run E op
  = (EXIT_FAILURE,
     mkWorld "" (oclc.at_what E +:+ endl) []
       [(clGetPlatformIDs oclc.kNDefaultPlatformEntry, CL_SUCCESS)]).
Proof.
  apply device_type_lookup in Hty.
  unfold oclc.run, oclc.main, try_main, oclc.main_body.
  rewrite Hhelp. unfold oclc.getPlatformIds.
  destruct (oclc.rt_GetPlatformIDs (oclc.rt E) oclc.kNDefaultPlatformEntry)
    as [[errCode got] n]. simpl in Hplatforms. subst errCode.
  unfold mbind, M_bind, oclc.map_at. cbn [mret M_ret call_log].
  rewrite check_error_success, Hty.
  destruct (oclc.opt_list op); [reflexivity|].
  destruct Hwork as [|Hargs]; [done|].
  destruct (oclc.opt_arguments op); [done|]. reflexivity.
Qed.

Lemma unknown_device_type_witness :
  oclc.run (sample.env CL_SUCCESS (λ _, true))
    (oclc.mkOptions false false "tpu" "" "" 0 0 false false ["vecAdd.cl"])
  = (EXIT_FAILURE,
     mkWorld "" ("_Map_base::at" +:+ endl) [] [(clGetPlatformIDs 16, CL_SUCCESS)]).
Proof.
  apply (unknown_device_type (sample.env CL_SUCCESS (λ _, true))
           (oclc.mkOptions false false "tpu" "" "" 0 0 false false ["vecAdd.cl"])).
  - reflexivity.
  - reflexivity.
  - cbn [oclc.opt_device_type]. rewrite !elem_of_cons, elem_of_nil.
    intros [H|[H|[H|[H|[]]]]]; discriminate H.
  - right. discriminate.
Defined.

(** ** The listing mode *)

(** With the list flag (and no help flag) the [try] block is the listing
    alone. *)
Lemma list_mode_body (E : oclc.Env) (op : oclc.Options) (w : World) :
  oclc.opt_help op = false → oclc.opt_list op = true →
  oclc.main_body E op w = listing E (oclc.opt_device_type op) w.
Proof.
  intros Hhelp Hlist. unfold oclc.main_body, listing. rewrite Hhelp, Hlist.
  unfold mbind, M_bind. cbn [mret M_ret].
  destruct (oclc.getPlatformIds E _ w) as [[platformIds|e|s|s] w1]; [|done..].
  destruct (oclc.map_at E _ _ w1) as [[deviceType|e|s|s] w2]; [|done..].
  by destruct (oclc.showInfo E _ _ w2) as [[[]|e|s|s] w3].
Qed.

(** X12.  In listing mode the run depends on the command line through the
    device type only: two command lines with the list flag, without the
    help flag and with the same device type give the same exit status and
    the same final world, whatever their source files, indices, output
    name, build options and other flags. *)
Theorem list_mode_ignores_the_rest (E : oclc.Env) (op1 op2 : oclc.Options)
    (Hhelp1 : oclc.opt_help op1 = false) (Hhelp2 : oclc.opt_help op2 = false)
    (Hlist1 : oclc.opt_list op1 = true) (Hlist2 : oclc.opt_list op2 = true)
    (Hty : oclc.opt_device_type op1 = oclc.opt_device_type op2) :
  oclc.run E op1 = oclc.run E op2.
Proof.
  unfold oclc.run, oclc.main, try_main.
  rewrite !list_mode_body by done. by rewrite Hty.
Qed.

Lemma list_mode_ignores_the_rest_witness :
  oclc.run (sample.env CL_SUCCESS (λ _, true))
    (oclc.mkOptions false true "gpu" "" "" 0 0 false false [])
  = oclc.run (sample.env CL_SUCCESS (λ _, true))
      (oclc.mkOptions true true "gpu" "out" "-w" 5 6 true false ["a.cl"; "b.cl"]).
Proof.
  apply (list_mode_ignores_the_rest (sample.env CL_SUCCESS (λ _, true)));
    reflexivity.
Defined.

Lemma only_calls_cout (allow : cl_call * Z → Prop) (s : string) :
  preserves (only_calls allow) (cout_put s).
Proof. by intros w Hw. Qed.

Lemma only_calls_call (allow : cl_call * Z → Prop) (c : cl_call) (status : Z) :
  allow (c, status) → preserves (only_calls allow) (call_log c status).
Proof.
  intros Hc w (Hf & He & Hcalls). repeat split; simpl; auto.
  apply Forall_app; split; [done | by constructor].
Qed.

(** Walks through a sequence of steps that only query the runtime. *)
Ltac query_steps :=
  repeat first
    [ solve [auto with pres]
    | apply only_calls_cout
    | apply only_calls_call; exact I
    | apply preserves_for_range; intros
    | apply preserves_bind; [|intros] ].

Section listing.
Context (E : oclc.Env).

Lemma query_getPlatformIds (n : nat) :
  preserves (only_calls query) (oclc.getPlatformIds E n).
Proof.
  unfold oclc.getPlatformIds.
  destruct (oclc.rt_GetPlatformIDs (oclc.rt E) n) as [[errCode got] nPlatform].
  query_steps.
Qed.

Lemma query_getDeviceIds (platformId : option handle) (n : nat) (ty : Z) :
  preserves (only_calls query) (oclc.getDeviceIds E platformId n ty).
Proof.
  unfold oclc.getDeviceIds.
  destruct (oclc.rt_GetDeviceIDs (oclc.rt E) platformId ty n) as [[errCode got] nDevice].
  query_steps.
Qed.

Lemma query_showPlatformInfo (platformId : option handle) :
  preserves (only_calls query) (oclc.showPlatformInfo E platformId).
Proof.
  unfold oclc.showPlatformInfo.
  destruct (oclc.rt_GetPlatformInfo (oclc.rt E) platformId CL_PLATFORM_NAME)
    as [c1 s1].
  destruct (oclc.rt_GetPlatformInfo (oclc.rt E) platformId CL_PLATFORM_VERSION)
    as [c2 s2].
  query_steps.
Qed.

Lemma query_showDeviceInfo (deviceId : option handle) :
  preserves (only_calls query) (oclc.showDeviceInfo E deviceId).
Proof.
  unfold oclc.showDeviceInfo.
  destruct (oclc.rt_GetDeviceInfo (oclc.rt E) deviceId CL_DEVICE_NAME) as [c1 s1].
  destruct (oclc.rt_GetDeviceInfo (oclc.rt E) deviceId CL_DEVICE_VERSION) as [c2 s2].
  query_steps.
Qed.

Lemma query_showInfo (platformIds : list handle) (ty : Z) :
  preserves (only_calls query) (oclc.showInfo E platformIds ty).
Proof.
  unfold oclc.showInfo.
  query_steps;
    auto using query_showPlatformInfo, query_getDeviceIds, query_showDeviceInfo.
Qed.

End listing.

#[local] Hint Resolve query_getPlatformIds query_getDeviceIds query_showInfo : pres.

Lemma line_not_empty (s t : string) : s +:+ t +:+ endl ≠ "".
Proof.
  intros H. apply (f_equal String.length) in H.
  rewrite !length_app_s in H. simpl in H. lia.
Qed.

(** X13.  In listing mode the run writes no file and calls the runtime for
    enumeration and information queries only: no context, no program, no
    build.  It ends with [EXIT_SUCCESS] and an empty standard error, or with
    [EXIT_FAILURE] and a diagnostic on standard error. *)
Theorem list_mode_only_queries (E : oclc.Env) (op : oclc.Options)
    (Hhelp : oclc.opt_help op = false) (Hlist : oclc.opt_list op = true) :
  files (oclc.run E op).2 = [] ∧
  Forall query (calls (oclc.run E op).2) ∧
  ((oclc.run E op).1 = EXIT_SUCCESS ∧ cerr (oclc.run E op).2 = "" ∨
   (oclc.run E op).1 = EXIT_FAILURE ∧ cerr (oclc.run E op).2 ≠ "").
Proof.
  unfold oclc.run, oclc.main, try_main. rewrite list_mode_body by done.
  assert (H0 : only_calls query world0) by (by repeat split).
  assert (Hpre : preserves (only_calls query) (listing E (oclc.opt_device_type op))).
  { unfold listing. query_steps. }
  assert (Hends : ∀ r w', listing E (oclc.opt_device_type op) world0 = (r, w') →
                          r = Returned EXIT_SUCCESS ∨ ∃ e, r = Thrown e).
  { intros r w'. unfold listing, mbind, M_bind.
    destruct (oclc.getPlatformIds E _ world0) as [[platformIds|e|s1|s1] w1] eqn:H1;
      [|intros [= <- _]; eauto|
       by destruct (nr_getPlatformIds E oclc.kNDefaultPlatformEntry world0 s1 w1)..].
    destruct (oclc.map_at E _ _ w1) as [[deviceType|e|s2|s2] w2] eqn:H2;
      [|intros [= <- _]; eauto|
       by destruct (nr_map_at E oclc.kDeviceTypeMap (oclc.opt_device_type op)
                      w1 s2 w2)..].
    destruct (oclc.showInfo E _ _ w2) as [[[]|e|s3|s3] w3] eqn:H3;
      [|intros [= <- _]; eauto|
       by destruct (nr_showInfo E platformIds deviceType w2 s3 w3)..].
    intros [= <- _]. by left. }
  specialize (Hpre world0 H0).
  destruct (listing E (oclc.opt_device_type op) world0) as [r w'] eqn:Hrun.
  destruct (Hends r w' eq_refl) as [->|[e ->]]; cbn;
    destruct Hpre as (Hf & He & Hc); repeat split; auto.
  right. split; [done|]. rewrite He. apply (line_not_empty "").
Qed.

Lemma list_mode_only_queries_witness :
  let op := oclc.mkOptions false true "gpu" "" "" 0 0 false false [] in
  let E := sample.env CL_SUCCESS (λ _, true) in
  files (oclc.run E op).2 = [] ∧
  Forall query (calls (oclc.run E op).2) ∧
  ((oclc.run E op).1 = EXIT_SUCCESS ∧ cerr (oclc.run E op).2 = "" ∨
   (oclc.run E op).1 = EXIT_FAILURE ∧ cerr (oclc.run E op).2 ≠ "").
Proof.
  apply (list_mode_only_queries (sample.env CL_SUCCESS (λ _, true))); reflexivity.
Defined.

(** ** The exit status of the compiler *)


Lemma app_not_empty (s t : string) : t ≠ "" → s +:+ t ≠ "".
Proof.
  intros Ht H. apply (f_equal String.length) in H.
  rewrite length_app_s in H. destruct t; [done|]. simpl in H. lia.
Qed.




(** ** The files of a run *)

Lemma run_files (E : oclc.Env) (op : oclc.Options) :
  files (oclc.run E op).2 = [] ∨ files (oclc.run E op).2 = oclc.written_files E op.
Proof.
  pose proof (run_shape E op) as H.
  destruct (oclc.run E op) as [status w]; simpl.
  destruct H as [[_ (_ & Hf & _)] | [(_ & Hf & _) | (Hf & _)]]; auto.
Qed.

Lemma written_file (E : oclc.Env) (op : oclc.Options) (name : string)
    (bytes : list byte) :
  (name, bytes) ∈ oclc.written_files E op →
  ∃ i, (i < oclc.nDevice E)%nat ∧ oclc.has_binary E i = true ∧
       oclc.fs_writable E name = true ∧
       name = oclc.filename_of E op i ∧ bytes = oclc.binary E i.
Proof.
  unfold oclc.written_files. intros Hin.
  apply list_elem_of_fmap in Hin as (i & [= -> ->] & Hi).
  apply list_elem_of_In, filter_In in Hi as [Hi Hp].
  apply in_seq in Hi. apply andb_true_iff in Hp as [Hb Hw].
  exists i. repeat split; auto. lia.
Qed.

(** X15.  A run writes at most one file per device reported for the built
    program.  Every file written belongs to a device [i] below the device
    count whose reported binary size is not zero; it bears the name computed
    for [i], which could be opened; and it holds exactly as many bytes as
    the size reported for [i].  A device of size zero gets no file. *)
Theorem files_of_a_run (E : oclc.Env) (op : oclc.Options) :
  (length (files (oclc.run E op).2) ≤ oclc.nDevice E)%nat ∧
  ∀ name bytes, (name, bytes) ∈ files (oclc.run E op).2 →
    ∃ i, (i < oclc.nDevice E)%nat ∧ oclc.binSize E i ≠ 0%N ∧
         oclc.fs_writable E name = true ∧
         name = oclc.filename_of E op i ∧
         length bytes = N.to_nat (oclc.binSize E i).
Proof.
  destruct (run_files E op) as [->| ->].
  - split; [simpl; lia|]. intros name bytes Hin. by apply elem_of_nil in Hin.
  - split.
    + unfold oclc.written_files, oclc.persisted. rewrite length_map.
      etransitivity; [apply List.filter_length_le|]. by rewrite length_seq.
    + intros name bytes Hin.
      apply written_file in Hin as (i & Hi & Hb & Hw & -> & ->).
      exists i. repeat split; auto.
      * unfold oclc.has_binary in Hb. apply negb_true_iff, N.eqb_neq in Hb. done.
      * unfold oclc.binary. apply length_resize.
Qed.

(** X16.  The files of a run have pairwise distinct names, with or without
    an output name and whatever the device count: no file of a run
    overwrites another one. *)
Theorem file_names_are_distinct (E : oclc.Env) (op : oclc.Options) :
  NoDup (map fst (files (oclc.run E op).2)).
Proof.
  destruct (run_files E op) as [->| ->]; [constructor|].
  unfold oclc.written_files. rewrite map_map. simpl.
  destruct (decide (1 < oclc.nDevice E)%nat) as [Hn|Hn].
  - apply (NoDup_fmap_2 (oclc.filename_of E op) (Inj0 := filename_of_inj E op Hn)).
    apply NoDup_ListNoDup, List.NoDup_filter, NoDup_ListNoDup, NoDup_seq.
  - unfold oclc.persisted.
    destruct (oclc.nDevice E) as [|[|n]]; [constructor| |lia].
    simpl. destruct (_ && _); simpl; repeat constructor. by intros H%elem_of_nil.
Qed.

(** X17.  With an output name the source file names play no part in the
    file names: every file written is named by the output name itself when
    at most one device is reported, and by the output name followed by a
    dot and the device index when several are. *)
Theorem names_with_output_name (E : oclc.Env) (op : oclc.Options)
    (Hout : oclc.opt_output op ≠ "") :
  ∀ name bytes, (name, bytes) ∈ files (oclc.run E op).2 →
    ∃ i, (i < oclc.nDevice E)%nat ∧
         name = if (1 <? oclc.nDevice E)%nat
                then oclc.opt_output op +:+ "." +:+ to_string_size i
                else oclc.opt_output op.
Proof.
  intros name bytes Hin.
  destruct (run_files E op) as [Hf|Hf]; rewrite Hf in Hin;
    [by apply elem_of_nil in Hin|].
  apply written_file in Hin as (i & Hi & _ & _ & -> & _).
  exists i. split; [done|].
  unfold oclc.filename_of, oclc.artifact_filename.
  apply String.eqb_neq in Hout. by rewrite Hout.
Qed.

Lemma names_with_output_name_witness :
  let E := sample.env CL_SUCCESS (λ _, true) in
  let op := oclc.mkOptions false false "default" "out" "" 0 0 false false ["vecAdd.cl"] in
  oclc.opt_output op ≠ "" ∧
  map fst (files (oclc.run E op).2) = ["out.0"; "out.1"] ∧
  ∃ i, (i < oclc.nDevice E)%nat ∧
       "out.1" = if (1 <? oclc.nDevice E)%nat
                 then oclc.opt_output op +:+ "." +:+ to_string_size i
                 else oclc.opt_output op.
Proof.
  intros E op. split; [discriminate|]. split; [vm_compute; reflexivity|].
  eapply (names_with_output_name E op ltac:(discriminate) "out.1").
  apply (list_elem_of_lookup_2 _ 1). vm_compute. reflexivity.
Defined.

(** ** The arithmetic of the comparison *)

Lemma SFadd_comm (prec emax : Z) (x y : spec_float) :
  SFadd prec emax x y = SFadd prec emax y x.
Proof.
  destruct x as [sx|sx| |sx mx ex], y as [sy|sy| |sy my ey]; simpl;
    try reflexivity; try (by destruct sx, sy).
  by rewrite (Z.min_comm ey ex), Z.add_comm.
Qed.

Lemma shl_align_same (m : positive) (e : Z) : shl_align m e e = (m, e).
Proof. unfold shl_align. by rewrite Z.sub_diag. Qed.

(** A value minus itself is zero, or not a number. *)
Lemma SFsub_diag (prec emax : Z) (x : spec_float) :
  SFsub prec emax x x = S754_zero false ∨ SFsub prec emax x x = S754_nan.
Proof.
  destruct x as [s|s| |s m e]; simpl.
  - left. by destruct s.
  - right. by destruct s.
  - by right.
  - left. rewrite Z.min_id, shl_align_same. simpl. by rewrite Z.sub_diag.
Qed.

Lemma exact_sum_matches (x y : spec_float) :
  oclc_test.mismatch x y (oclc_test.fadd x y) = false.
Proof.
  unfold oclc_test.mismatch, oclc_test.fsub.
  by destruct (SFsub_diag 24 128 (oclc_test.fadd x y)) as [-> | ->].
Qed.

(** X18.  An output buffer that holds, at every index below N, the [float]
    sum of the two inputs passes: the verifier prints "Test PASSED" and ends
    with [EXIT_SUCCESS], also where the sum overflows to an infinity or is
    not a number. *)
Theorem exact_sum_passes (E : oclc_test.Env) (kernelFile : string)
    (more : list string) (inputA inputB output : nat → spec_float) (w w' : World)
    (Hrun : oclc_test.device_run E kernelFile inputA inputB w = (Normal output, w'))
    (Hsum : ∀ i, (i < oclc_test.N_elements)%nat →
                 output i = oclc_test.fadd (inputA i) (inputB i)) :
  oclc_test.main E (kernelFile :: more) inputA inputB w
  = (EXIT_SUCCESS,
     mkWorld (cout w' +:+ "Test PASSED" +:+ endl) (cerr w') (files w') (calls w')).
Proof.
  unfold oclc_test.main, try_main, mbind, M_bind. rewrite Hrun.
  rewrite (check_result_passes inputA inputB output w'); [done|].
  intros j Hj. rewrite Hsum by done. apply exact_sum_matches.
Qed.

Lemma exact_sum_passes_witness :
  let E := sample.test_env 99 (λ _, sample.two) in
  let inputA := λ _ : nat, sample.one in
  let inputB := λ _ : nat, sample.one in
  oclc_test.main E ["vecAdd.bin"] inputA inputB world0
  = (EXIT_SUCCESS,
     mkWorld ("" +:+ "Test PASSED" +:+ endl) "" []
       (calls (oclc_test.device_run E "vecAdd.bin" inputA inputB world0).2)).
Proof.
  intros E inputA inputB.
  assert (Hrun : oclc_test.device_run E "vecAdd.bin" inputA inputB world0
                 = (Normal (λ _, sample.two),
                    mkWorld "" "" []
                      (calls (oclc_test.device_run E "vecAdd.bin" inputA inputB world0).2)))
    by (vm_compute; reflexivity).
  apply (exact_sum_passes E "vecAdd.bin" [] inputA inputB (λ _, sample.two) world0 _ Hrun).
  intros i _. vm_compute. reflexivity.
Defined.

Lemma for_range_ext (body1 body2 : nat → M unit) (count : nat) :
  (∀ i w, body1 i w = body2 i w) →
  ∀ from w, for_range from count body1 w = for_range from count body2 w.
Proof.
  intros Hext. induction count as [|count IH]; intros from w; [done|].
  simpl. unfold mbind, M_bind. rewrite Hext.
  destruct (body2 from w) as [[[]|e|s|s] w1]; [apply IH|done..].
Qed.

(** X19.  The comparison does not tell the two inputs apart: with the two
    input buffers exchanged it reports the same index or prints the same
    "Test PASSED", from any world. *)
Theorem comparison_is_symmetric (hostX hostY hostZ : nat → spec_float) (w : World) :
  oclc_test.check_result hostX hostY hostZ w
  = oclc_test.check_result hostY hostX hostZ w.
Proof.
  unfold oclc_test.check_result, mbind, M_bind.
  rewrite (for_range_ext (oclc_test.check_element hostX hostY hostZ)
             (oclc_test.check_element hostY hostX hostZ)); [done|].
  intros i w1. unfold oclc_test.check_element, oclc_test.mismatch, oclc_test.fadd.
  by rewrite (SFadd_comm 24 128 (hostX i)).
Qed.

(** ** The verdict and the exit status of the verifier *)

(** The loop either finds no mismatch or has a first one. *)
Lemma first_mismatch (hostX hostY hostZ : nat → spec_float) (count : nat) :
  ∀ from,
  (∀ j, (from ≤ j < from + count)%nat →
        oclc_test.mismatch (hostX j) (hostY j) (hostZ j) = false) ∨
  (∃ i, (from ≤ i < from + count)%nat ∧
        (∀ j, (from ≤ j < i)%nat →
              oclc_test.mismatch (hostX j) (hostY j) (hostZ j) = false) ∧
        oclc_test.mismatch (hostX i) (hostY i) (hostZ i) = true).
Proof.
  induction count as [|count IH]; intros from; [left; intros j Hj; lia|].
  destruct (oclc_test.mismatch (hostX from) (hostY from) (hostZ from)) eqn:Hhere.
  - right. exists from. repeat split; auto; intros; lia.
  - destruct (IH (S from)) as [Hok | (i & Hi & Hbefore & Hbad)].
    + left. intros j Hj. destruct (decide (j = from)) as [->|]; [done|].
      apply Hok. lia.
    + right. exists i. repeat split; auto; try lia. intros j Hj.
      destruct (decide (j = from)) as [->|]; [done|]. apply Hbefore. lia.
Qed.

(** The comparison ends in one of two ways. *)
Lemma check_result_verdict (hostX hostY hostZ : nat → spec_float) (w : World) :
  (∃ i, (i < oclc_test.N_elements)%nat ∧
        oclc_test.check_result hostX hostY hostZ w
        = (Returned EXIT_FAILURE,
           mkWorld (cout w) (cerr w +:+ oclc_test.failure_line i) (files w) (calls w))) ∨
  oclc_test.check_result hostX hostY hostZ w
  = (Returned EXIT_SUCCESS,
     mkWorld (cout w +:+ "Test PASSED" +:+ endl) (cerr w) (files w) (calls w)).
Proof.
  destruct (first_mismatch hostX hostY hostZ oclc_test.N_elements 0)
    as [Hok | (i & Hi & Hbefore & Hbad)].
  - right. apply check_result_passes. intros j Hj. apply Hok. lia.
  - left. exists i. split; [lia|]. apply check_result_fails; auto; [lia|].
    intros j Hj. apply Hbefore. lia.
Qed.

Lemma quiet_ret {A} (a : A) : quiet (mret a : M A).
Proof. by intros w Hw. Qed.

Lemma quiet_throw {A} (e : exception) : quiet (@throw A e).
Proof. by intros w Hw. Qed.

Lemma quiet_call (c : cl_call) (status : Z) : quiet (call_log c status).
Proof. by intros w Hw. Qed.

Lemma quiet_bind {A B} (m : M A) (f : A → M B) :
  quiet m → (∀ a, quiet (f a)) → quiet (m ≫= f).
Proof. intros Hm Hf. by apply triple_bind with (Q' := λ _, silent). Qed.

Lemma quiet_scope {A} (released : list (cl_call * Z)) (block : M A) :
  quiet block → quiet (scope released block).
Proof. intros Hm. eapply triple_scope; [exact Hm|..]; auto. Qed.

Create HintDb quiet discriminated.

#[local] Hint Resolve quiet_ret quiet_throw quiet_call : quiet.

Ltac quiet_steps :=
  repeat first
    [ solve [auto with quiet]
    | apply quiet_bind; [|intros] ].

Section quiet_verifier.
Context (E : oclc_test.Env).

Lemma quiet_throw_if (cond : bool) (msg : string) :
  quiet (oclc_test.KOTLIB_THROW_IF E cond msg).
Proof. unfold oclc_test.KOTLIB_THROW_IF. destruct cond; auto with quiet. Qed.

Lemma quiet_checked (c : cl_call) (errCode : Z) (msg : string) :
  quiet (oclc_test.checked E c errCode msg).
Proof.
  unfold oclc_test.checked. apply quiet_bind; [apply quiet_call|].
  intros _. apply quiet_throw_if.
Qed.

Lemma quiet_getPlatformIds (n : nat) : quiet (oclc_test.getPlatformIds E n).
Proof.
  unfold oclc_test.getPlatformIds.
  destruct (oclc_test.rt_GetPlatformIDs E n) as [[errCode got] nPlatform].
  quiet_steps. apply quiet_throw_if.
Qed.

Lemma quiet_getDeviceIds (platformId : option handle) (n : nat) (ty : Z) :
  quiet (oclc_test.getDeviceIds E platformId n ty).
Proof.
  unfold oclc_test.getDeviceIds.
  destruct (oclc_test.rt_GetDeviceIDs E platformId ty n) as [[errCode got] nDevice].
  quiet_steps. apply quiet_throw_if.
Qed.

Lemma quiet_setKernelArgsImpl (rest : list karg) :
  ∀ idx first, quiet (oclc_test.setKernelArgsImpl E idx first rest).
Proof.
  induction rest as [|next rest IH]; intros idx first; simpl.
  - quiet_steps.
  - apply quiet_bind; [apply quiet_call|]. intros _. cbv zeta.
    destruct (_ =? _)%Z; [apply IH | apply quiet_ret].
Qed.

End quiet_verifier.

#[local] Hint Resolve quiet_throw_if quiet_checked quiet_getPlatformIds
  quiet_getDeviceIds quiet_setKernelArgsImpl : quiet.

(** Up to the comparison the verifier prints nothing, except when it
    leaves through [std::exit] for a kernel file that cannot be read. *)
Lemma device_run_silent (E : oclc_test.Env) (kernelFile : string)
    (hostX hostY : nat → spec_float) :
  triple silent (oclc_test.device_run E kernelFile hostX hostY)
    (λ _, silent) (λ _, silent)
    (λ s w, s = EXIT_FAILURE ∧ cout w = "" ∧ cerr w ≠ "").
Proof.
  assert (Hstep : ∀ {A B} (m : M A) (f : A → M B),
    quiet m →
    (∀ a, triple silent (f a) (λ _, silent) (λ _, silent)
            (λ s w, s = EXIT_FAILURE ∧ cout w = "" ∧ cerr w ≠ "")) →
    triple silent (m ≫= f) (λ _, silent) (λ _, silent)
      (λ s w, s = EXIT_FAILURE ∧ cout w = "" ∧ cerr w ≠ "")).
  { intros A B m f Hm Hf. apply triple_bind with (Q' := λ _, silent); [|done].
    eapply triple_weaken; [exact Hm|..]; auto. intros s w []. }
  assert (Hscope : ∀ {A} released (block : M A),
    triple silent block (λ _, silent) (λ _, silent)
      (λ s w, s = EXIT_FAILURE ∧ cout w = "" ∧ cerr w ≠ "") →
    triple silent (scope released block) (λ _, silent) (λ _, silent)
      (λ s w, s = EXIT_FAILURE ∧ cout w = "" ∧ cerr w ≠ "")).
  { intros A released block Hblock.
    eapply triple_scope; [exact Hblock|..]; auto. }
  unfold oclc_test.device_run, unique_ptr. cbv zeta.
  apply Hstep; [auto with quiet|]. intros platformIds.
  apply Hstep; [auto with quiet|]. intros deviceIds.
  destruct (oclc_test.rt_CreateContext E _) as [errCode context].
  apply Hstep; [auto with quiet|]. intros _. apply Hscope.
  apply Hstep; [auto with quiet|]. intros _.
  destruct (oclc_test.rt_CreateCommandQueue E _) as [errCode1 cmdQueue].
  apply Hstep; [auto with quiet|]. intros _. apply Hscope.
  apply Hstep; [auto with quiet|]. intros _.
  destruct (oclc_test.rt_CreateBuffer E 0) as [statusX deviceX].
  apply Hstep; [auto with quiet|]. intros _. apply Hscope.
  destruct (oclc_test.rt_CreateBuffer E 1) as [statusY deviceY].
  apply Hstep; [auto with quiet|]. intros _. apply Hscope.
  destruct (oclc_test.rt_CreateBuffer E 2) as [statusZ deviceZ].
  apply Hstep; [auto with quiet|]. intros _. apply Hscope.
  apply Hstep; [auto with quiet|]. intros _.
  apply Hstep; [auto with quiet|]. intros _.
  apply Hstep; [auto with quiet|]. intros _.
  unfold oclc_test.load_and_run, unique_ptr.
  destruct (oclc_test.fs_read E kernelFile) as [kernelBin|].
  - destruct (oclc_test.rt_CreateProgramWithBinary E _ _) as [errCode2 program].
    apply Hstep; [auto with quiet|]. intros _. apply Hscope.
    apply Hstep; [auto with quiet|]. intros _.
    destruct (oclc_test.rt_CreateKernel E _) as [errCode3 kernel].
    apply Hstep; [auto with quiet|]. intros _. apply Hscope.
    apply Hstep; [auto with quiet|]. intros _.
    apply Hstep; [unfold oclc_test.setKernelArgs; auto with quiet|]. intros errCode4.
    apply Hstep; [auto with quiet|]. intros _.
    apply Hstep; [auto with quiet|]. intros _.
    apply Hstep; [auto with quiet|]. intros _.
    apply Hstep; [auto with quiet|]. intros _.
    destruct (oclc_test.rt_EnqueueReadBuffer E deviceZ) as [errCode' readBack].
    apply Hstep; [auto with quiet|]. intros _.
    eapply triple_weaken; [apply quiet_ret|..]; auto. intros s w [].
  - intros w [Hout Herr]. unfold mbind, M_bind; cbn.
    repeat split; auto. apply app_not_empty, line_not_empty.
Qed.

(** X20.  Started with nothing printed, the verifier ends in one of two
    ways: with [EXIT_SUCCESS], the line "Test PASSED" as its whole standard
    output and nothing on standard error; or with [EXIT_FAILURE], nothing on
    standard output and a diagnostic on standard error.  "Test PASSED" is
    printed exactly when the exit status is 0. *)
Theorem exit_status_of_the_verifier (E : oclc_test.Env) (args : list string)
    (hostX hostY : nat → spec_float) :
  let result := oclc_test.main E args hostX hostY world0 in
  (result.1 = EXIT_SUCCESS ∧ cout result.2 = "Test PASSED" +:+ endl ∧
   cerr result.2 = "") ∨
  (result.1 = EXIT_FAILURE ∧ cout result.2 = "" ∧ cerr result.2 ≠ "").
Proof.
  cbv zeta. unfold oclc_test.main. destruct args as [|kernelFile more].
  - right. unfold try_main, mbind, M_bind; cbn. by repeat split.
  - unfold try_main, mbind, M_bind.
    assert (H0 : silent world0) by done.
    pose proof (device_run_silent E kernelFile hostX hostY world0 H0) as Hrun.
    destruct (oclc_test.device_run E kernelFile hostX hostY world0)
      as [[hostZ|e|s|s] w1].
    + destruct Hrun as [Hout Herr].
      destruct (check_result_verdict hostX hostY hostZ w1) as [(i & _ & ->) | ->];
        cbn; rewrite Hout, Herr.
      * right. repeat split; auto; try apply (line_not_empty "").
      * left. by repeat split.
    + destruct Hrun as [Hout Herr]. right. cbn. rewrite Hout, Herr.
      repeat split; auto; try apply (line_not_empty "").
    + destruct Hrun as (-> & Hout & Herr). right. by repeat split.
    + destruct Hrun as (-> & Hout & Herr). right. by repeat split.
Qed.

(** ** The order of the runtime calls of the verifier *)

Section protocol.
Context (E : oclc_test.Env).




Hypothesis status_range : ∀ idx a, is_cl_int (oclc_test.rt_SetKernelArg E idx a).


End protocol.






(** ** [removeSuffix] on any file name *)

(** A string has no dot, or splits at its last dot. *)
Lemma last_dot_split (f : string) :
  occurs "." f = false ∨
  ∃ pre suf, f = pre +:+ "." +:+ suf ∧ occurs "." suf = false.
Proof.
  induction f as [|c f [Hnone | (pre & suf & -> & Hsuf)]].
  - by left.
  - destruct (Ascii.eqb_spec c ".") as [->|Hc].
    + right. by exists "", f.
    + left. simpl. by apply Ascii.eqb_neq in Hc as ->.
  - right. by exists (String c pre), suf.
Qed.

(** X22.  On every file name, [removeSuffix] returns a prefix of the name:
    either the whole name, when it has no dot, or the name without a tail
    that starts at a dot and has no other dot.  The result is never longer
    than the name, and a directory part with a dot in it is cut like an
    extension when the file part has none. *)
Theorem removeSuffix_is_a_prefix (f : string) (Hlen : (size f < npos)%N) :
  ∃ tail, f = oclc.removeSuffix f +:+ tail ∧
          (tail = "" ∧ occurs "." f = false ∨
           ∃ suf, tail = "." +:+ suf ∧ occurs "." suf = false).
Proof.
  destruct (last_dot_split f) as [Hnone | (pre & suf & -> & Hsuf)].
  - exists "". rewrite removeSuffix_dotless by (done || lia).
    split; [by rewrite app_nil_r_s | by left].
  - exists ("." +:+ suf). rewrite removeSuffix_last_dot by done.
    split; [done | right; by exists suf].
Qed.

Lemma removeSuffix_is_a_prefix_witness :
  ∃ tail, "src.d/kernel" = oclc.removeSuffix "src.d/kernel" +:+ tail ∧
          (tail = "" ∧ occurs "." "src.d/kernel" = false ∨
           ∃ suf, tail = "." +:+ suf ∧ occurs "." suf = false).
Proof.
  apply (removeSuffix_is_a_prefix "src.d/kernel"). vm_compute. reflexivity.
Defined.
